(** * The reload / train / predict pipeline of [app.py]

    A shallow embedding of the Flask service in [src/app.py]: the
    preprocessing of the assessment frame, the [/reload] handler and the
    [/predict] handler, with the process globals [model] and [encoder] and
    the [Assessment] table as an explicit state record.

    The service is glue over pandas, scikit-learn and numpy.  What those
    libraries compute numerically (parsing a number, a median, the
    least-squares solver, the linear decision function) is taken as an
    interface, [Lib]; what the program's control flow depends on (index
    labels kept by [dropna], index alignment in [pd.concat], the sorted
    category vocabulary of [OneHotEncoder], input validation of [predict])
    is written out. *)

From Stdlib Require Import Bool String Ascii List ZArith Arith Lia Sorted.
Import ListNotations.
Local Open Scope list_scope.

(** ** Values *)

(** A float64 cell.  NaN is kept apart from the other values, since the
    program branches on it ([dropna], [pd.isna]); [R] is the carrier of
    the remaining values, infinities included. *)
Inductive float64 (R : Type) : Type :=
| NaN : float64 R
| Val : R -> float64 R.
Arguments NaN {R}.
Arguments Val {R} _.

Definition isna {R} (x : float64 R) : bool :=
  match x with NaN => true | Val _ => false end.

(** Python exceptions the handlers can meet. *)
Inductive exn : Type :=
| KeyError (key : string)
| ValueError (msg : string)
| OverflowError (msg : string)
| NotFittedError (msg : string)
| RequestException (msg : string).

(** [str(e)] *)
Definition str (e : exn) : string :=
  match e with
  | KeyError k => k
  | ValueError m | OverflowError m | NotFittedError m | RequestException m => m
  end.

Inductive result (A : Type) : Type :=
| Ok : A -> result A
| Raise : exn -> result A.
Arguments Ok {A} _.
Arguments Raise {A} _.

Definition bind {A B} (r : result A) (k : A -> result B) : result B :=
  match r with Ok a => k a | Raise e => Raise e end.

Notation "x <- r ;; k" := (bind r (fun x => k))
  (at level 61, r at next level, right associativity).

(** ** The library interface *)

Class Lib : Type := {
  (** float64 values other than NaN *)
  R : Type;
  (** [np.isinf] *)
  isinf : R -> bool;
  (** [1.0] and [0.0], also what numpy makes of [True] and [False] *)
  of_bool : bool -> R;
  (** what [pd.to_numeric(s, errors='coerce')] reads in a string; [NaN]
      when the string is no number *)
  parse_number : string -> float64 R;
  (** [int(x)]; [None] stands for the [OverflowError] on an infinity *)
  to_int : R -> option Z;
  (** [Series.median], [mean], [min], [max] over the non-missing cells;
      NaN on an empty column *)
  median : list R -> float64 R;
  mean : list R -> float64 R;
  minimum : list R -> float64 R;
  maximum : list R -> float64 R;
  (** [Series.value_counts().head().to_dict()] *)
  value_counts_head : list string -> list (string * nat);
  (** fitted coefficients and intercept of [LinearRegression] *)
  Params : Type;
  (** the least-squares solver behind [LinearRegression.fit];
      [None] when it raises *)
  lstsq : list (list R) -> list R -> option Params;
  (** [X @ coef_ + intercept_] for one row *)
  decision : Params -> list R -> float64 R;
  (** 1.0 and 0.0 are not infinite *)
  of_bool_finite : forall b, isinf (of_bool b) = false
}.

Section App.
Context {L : Lib}.

Definition isfinite (x : float64 R) : bool :=
  match x with NaN => false | Val r => negb (isinf r) end.

(** ** Data frames *)

(** One line of the downloaded CSV: the five columns the service uses and
    the remaining columns of the data set. *)
Record CsvRow : Type := mkCsvRow {
  csv_assessedvalue : float64 R;
  csv_interior_bedrooms : float64 R;
  csv_interior_fullbaths : float64 R;
  csv_interior_halfbaths : float64 R;
  csv_condition_overallcondition : option string;
  csv_other_columns : list (option string)
}.

(** A row of the frame restricted to the five columns.  A missing
    condition is [None]. *)
Record Row : Type := mkRow {
  assessedvalue : float64 R;
  interior_bedrooms : float64 R;
  interior_fullbaths : float64 R;
  interior_halfbaths : float64 R;
  condition_overallcondition : option string
}.

(** A frame is its rows with their index labels.  [pd.read_csv] labels the
    rows 0, 1, 2, ...; [dropna] and column selection keep the labels. *)
Definition Frame : Type := list (nat * Row).

Definition index (df : Frame) : list nat := map fst df.

Definition select_columns (c : CsvRow) : Row :=
  mkRow (csv_assessedvalue c) (csv_interior_bedrooms c)
        (csv_interior_fullbaths c) (csv_interior_halfbaths c)
        (csv_condition_overallcondition c).

(** [pd.read_csv(...)[[the five columns]]] *)
Definition read_csv (rows : list CsvRow) : Frame :=
  combine (seq 0 (length rows)) (map select_columns rows).

Definition notna_str (c : option string) : bool :=
  match c with Some _ => true | None => false end.

(** No missing value in any of the five columns. *)
Definition complete (r : Row) : bool :=
  negb (isna (assessedvalue r)) && negb (isna (interior_bedrooms r)) &&
  negb (isna (interior_fullbaths r)) && negb (isna (interior_halfbaths r)) &&
  notna_str (condition_overallcondition r).

(** [df.dropna(subset=[the five columns])]; on a frame of these five
    columns also [df.dropna()]. *)
Definition dropna (df : Frame) : Frame :=
  filter (fun p => complete (snd p)) df.

(** The non-missing cells of a numeric column. *)
Definition notna_cells (col : list (float64 R)) : list R :=
  flat_map (fun c => match c with Val x => [x] | NaN => [] end) col.

(** [cell.fillna(v)]; filling with NaN changes nothing. *)
Definition fillna (v c : float64 R) : float64 R :=
  match c with NaN => v | Val _ => c end.

Definition column (f : Row -> float64 R) (df : Frame) : list (float64 R) :=
  map (fun p => f (snd p)) df.

Definition fill_bedrooms (df : Frame) : Frame :=
  let m := median (notna_cells (column interior_bedrooms df)) in
  map (fun p => (fst p,
    mkRow (assessedvalue (snd p)) (fillna m (interior_bedrooms (snd p)))
          (interior_fullbaths (snd p)) (interior_halfbaths (snd p))
          (condition_overallcondition (snd p)))) df.

Definition fill_fullbaths (df : Frame) : Frame :=
  let m := median (notna_cells (column interior_fullbaths df)) in
  map (fun p => (fst p,
    mkRow (assessedvalue (snd p)) (interior_bedrooms (snd p))
          (fillna m (interior_fullbaths (snd p))) (interior_halfbaths (snd p))
          (condition_overallcondition (snd p)))) df.

Definition fill_halfbaths (df : Frame) : Frame :=
  let m := median (notna_cells (column interior_halfbaths df)) in
  map (fun p => (fst p,
    mkRow (assessedvalue (snd p)) (interior_bedrooms (snd p))
          (interior_fullbaths (snd p)) (fillna m (interior_halfbaths (snd p)))
          (condition_overallcondition (snd p)))) df.

(** ** Category vocabulary *)

(** Sorted, duplicate-free insertion: the order [np.unique] gives the
    categories of a string column. *)
Fixpoint insert_unique (s : string) (l : list string) : list string :=
  match l with
  | [] => [s]
  | x :: l' =>
      match String.compare s x with
      | Lt => s :: l
      | Eq => l
      | Gt => x :: insert_unique s l'
      end
  end.

Definition sorted_unique (col : list string) : list string :=
  fold_right insert_unique [] col.

Definition count_str (s : string) (col : list string) : nat :=
  length (filter (String.eqb s) col).

Definition present (col : list (option string)) : list string :=
  flat_map (fun c => match c with Some s => [s] | None => [] end) col.

(** [Series.mode()[0]]: the most frequent value, the smallest one on a
    tie; a [KeyError] when the column has no value at all. *)
Definition mode0 (col : list (option string)) : result string :=
  let vals := present col in
  match sorted_unique vals with
  | [] => Raise (KeyError "0")
  | c :: cs =>
      Ok (fold_left
            (fun best x =>
               if count_str best vals <? count_str x vals then x else best)
            cs c)
  end.

(** ** One-hot encoder *)

Record OneHotEncoder : Type := mkEncoder {
  categories_ : list string
}.

Definition encoder_fit (col : list string) : OneHotEncoder :=
  mkEncoder (sorted_unique col).

Definition member (s : string) (l : list string) : bool :=
  existsb (String.eqb s) l.

Definition onehot (cats : list string) (s : string) : list R :=
  map (fun c => of_bool (String.eqb c s)) cats.

Definition unknown_category_msg (s : string) : string :=
  ("Found unknown categories ['" ++ s ++ "'] in column 0 during transform")%string.

(** [encoder.transform([[s]])[0]]; the encoder is built with the default
    [handle_unknown='error']. *)
Definition encoder_transform (enc : OneHotEncoder) (s : string)
  : result (list R) :=
  if member s (categories_ enc) then Ok (onehot (categories_ enc) s)
  else Raise (ValueError (unknown_category_msg s)).

(** ** [preprocess_data] *)

(** A row of [pd.concat([df, encoded_df], axis=1)] once the condition
    column is dropped: the join is an outer join on the index labels, so
    either side may be absent (all NaN) at a label. *)
Record Joined : Type := mkJoined {
  j_label : nat;
  j_left : option Row;
  j_right : option (list R)
}.

Fixpoint lookup {A} (l : nat) (rows : list (nat * A)) : option A :=
  match rows with
  | [] => None
  | (k, a) :: rest => if Nat.eqb k l then Some a else lookup l rest
  end.

Definition concat_axis1 (df : Frame) (encoded_df : list (nat * list R))
  : list Joined :=
  map (fun p => mkJoined (fst p) (Some (snd p)) (lookup (fst p) encoded_df)) df
  ++ map (fun q => mkJoined (fst q) None (Some (snd q)))
         (filter (fun q => negb (existsb (Nat.eqb (fst q)) (index df)))
                 encoded_df).

(** A row of the model-ready frame: no cell is missing. *)
Record FeatureRow : Type := mkFeatureRow {
  f_label : nat;
  f_assessedvalue : R;
  f_interior_bedrooms : R;
  f_interior_fullbaths : R;
  f_interior_halfbaths : R;
  f_condition : list R
}.

(** The final [df.dropna()]: a joined row is kept when every cell of it is
    present. *)
Definition dropna_joined_row (j : Joined) : list FeatureRow :=
  match j_left j, j_right j with
  | Some r, Some ind =>
      match assessedvalue r, interior_bedrooms r,
            interior_fullbaths r, interior_halfbaths r with
      | Val a, Val b, Val f, Val h => [mkFeatureRow (j_label j) a b f h ind]
      | _, _, _, _ => []
      end
  | _, _ => []
  end.

Definition dropna_joined (js : list Joined) : list FeatureRow :=
  flat_map dropna_joined_row js.

Definition fill_condition (m : string) (c : option string) : string :=
  match c with Some s => s | None => m end.

Definition preprocess_data (df : Frame)
  : result (list FeatureRow * OneHotEncoder) :=
  (* astype(float) leaves a float column as it is *)
  let df := dropna df in
  let df := fill_bedrooms df in
  let df := fill_fullbaths df in
  let df := fill_halfbaths df in
  m <- mode0 (map (fun p => condition_overallcondition (snd p)) df) ;;
  let conditions :=
    map (fun p => fill_condition m (condition_overallcondition (snd p))) df in
  let encoder := encoder_fit conditions in
  let encoded := map (onehot (categories_ encoder)) conditions in
  let encoded_df := combine (seq 0 (length encoded)) encoded in
  let joined := concat_axis1 df encoded_df in
  Ok (dropna_joined joined, encoder).

(** ** Shared state *)

(** A row of the [Assessment] table. *)
Record Assessment : Type := mkAssessment {
  id : nat;
  db_assessedvalue : R;
  db_interior_bedrooms : Z;
  db_interior_fullbaths : R;
  db_interior_halfbaths : Z;
  db_condition_overallcondition : string
}.

(** A [LinearRegression] object: as constructed, or after [fit]
    succeeded on a matrix of [n_features_in_] columns. *)
Inductive LinearRegression : Type :=
| Unfitted
| Fitted (n_features_in_ : nat) (params : Params).

(** The table and the two module globals, [model] and [encoder]
    ([None] until a reload assigns them). *)
Record State : Type := mkState {
  table : list Assessment;
  model : option LinearRegression;
  encoder : option OneHotEncoder
}.

Definition set_table (t : list Assessment) (st : State) : State :=
  mkState t (model st) (encoder st).
Definition set_model (m : LinearRegression) (st : State) : State :=
  mkState (table st) (Some m) (encoder st).
Definition set_encoder (e : OneHotEncoder) (st : State) : State :=
  mkState (table st) (model st) (Some e).

(** The state of a fresh process: the table is whatever the database file
    holds, the globals are [None]. *)
Definition initial (t : list Assessment) : State := mkState t None None.

(** ** Responses *)

Record Summary : Type := mkSummary {
  total_assessments : nat;
  average_assessedvalue : float64 R;
  min_assessedvalue : float64 R;
  max_assessedvalue : float64 R;
  average_interior_bedrooms : float64 R;
  average_interior_fullbaths : float64 R;
  top_condition_overallconditions : list (string * nat)
}.

Inductive Body : Type :=
| JSummary (s : Summary)
| JPredicted (predicted_assessedvalue : float64 R)
| JError (error : string)
(** the framework's answer to an exception that leaves the handler *)
| Unhandled (e : exn).

Record Response : Type := mkResponse {
  status_code : nat;
  body : Body
}.

(** ** [reload_data] *)

Definition int (x : float64 R) : result Z :=
  match x with
  | NaN => Raise (ValueError "cannot convert float NaN to integer")
  | Val r =>
      match to_int r with
      | Some z => Ok z
      | None => Raise (OverflowError "cannot convert float infinity to integer")
      end
  end.

(** The [Assessment(...)] built from one row of the frame; a missing
    [nullable=False] cell is refused by the table. *)
Definition new_assessment (i : nat) (row : Row) : result Assessment :=
  b <- int (interior_bedrooms row) ;;
  h <- int (interior_halfbaths row) ;;
  match assessedvalue row, interior_fullbaths row,
        condition_overallcondition row with
  | Val a, Val f, Some c => Ok (mkAssessment i a b f h c)
  | _, _, _ => Raise (ValueError "NOT NULL constraint failed")
  end.

(** The [iterrows] loop over the frame; the emptied table numbers its new
    rows from [i]. *)
Fixpoint add_all (i : nat) (rows : Frame) : result (list Assessment) :=
  match rows with
  | [] => Ok []
  | (_, row) :: rest =>
      a <- new_assessment i row ;;
      others <- add_all (S i) rest ;;
      Ok (a :: others)
  end.

Definition feature_names_out (enc : OneHotEncoder) : list string :=
  map (fun c => ("condition_overallcondition_" ++ c)%string) (categories_ enc).

(** The columns of [X = df.drop(columns='assessedvalue')]. *)
Definition X_columns (enc : OneHotEncoder) : list string :=
  ["interior_bedrooms"; "interior_fullbaths"; "interior_halfbaths"]%string
  ++ feature_names_out enc.

Definition X_row (r : FeatureRow) : list R :=
  [f_interior_bedrooms r; f_interior_fullbaths r; f_interior_halfbaths r]
  ++ f_condition r.

Definition no_inf (xs : list R) : bool := forallb (fun x => negb (isinf x)) xs.

(** [LinearRegression().fit(X, y)] on a matrix with columns [cols]: input
    validation wants at least one sample and no infinity. *)
Definition fit (cols : list string) (X : list (list R)) (y : list R)
  : result LinearRegression :=
  match X with
  | [] =>
      Raise (ValueError
        "Found array with 0 sample(s) while a minimum of 1 is required by LinearRegression.")
  | _ :: _ =>
      if forallb no_inf X && no_inf y then
        match lstsq X y with
        | Some p => Ok (Fitted (length cols) p)
        | None => Raise (ValueError "least-squares solver failed")
        end
      else Raise (ValueError "Input contains infinity or a value too large for dtype('float64').")
  end.

Definition summary_of (assessments : Frame) : Summary :=
  mkSummary
    (length assessments)
    (mean (notna_cells (column assessedvalue assessments)))
    (minimum (notna_cells (column assessedvalue assessments)))
    (maximum (notna_cells (column assessedvalue assessments)))
    (mean (notna_cells (column interior_bedrooms assessments)))
    (mean (notna_cells (column interior_fullbaths assessments)))
    (value_counts_head
       (present (map (fun p => condition_overallcondition (snd p)) assessments))).

Definition internal_server_error (e : exn) : Response :=
  mkResponse 500 (Unhandled e).

(** [upstream] is what [requests.get] and [pd.read_csv] come back with.

    An exception before [db.session.commit()] leaves the table as it was
    (the session is discarded with the request); one after it leaves the
    new rows.  The globals are assigned where the source assigns them:
    [encoder] when [preprocess_data] returns, [model] when the estimator
    is constructed, before [fit] runs on it. *)
Definition reload_data (upstream : result (list CsvRow)) (st : State)
  : Response * State :=
  match upstream with
  | Raise e => (internal_server_error e, st)
  | Ok csv =>
      let assessments := dropna (read_csv csv) in
      match add_all 1 assessments with
      | Raise e => (internal_server_error e, st)
      | Ok rows =>
          let st := set_table rows st in
          match preprocess_data assessments with
          | Raise e => (internal_server_error e, st)
          | Ok (df, enc) =>
              let st := set_encoder enc st in
              let X := map X_row df in
              let y := map f_assessedvalue df in
              let st := set_model Unfitted st in
              match fit (X_columns enc) X y with
              | Raise e => (internal_server_error e, st)
              | Ok fitted =>
                  let st := set_model fitted st in
                  (mkResponse 200 (JSummary (summary_of assessments)), st)
              end
          end
      end
  end.

(** ** [predict] *)

(** A value of the request's JSON object: [null], a boolean, a number or
    a string. *)
Inductive pyval : Type :=
| PyNone
| PyBool (b : bool)
| PyNum (x : float64 R)
| PyStr (s : string).

(** The parsed JSON object of the request body. *)
Definition dict : Type := list (string * pyval).

(** [data.get(key)] *)
Fixpoint get (data : dict) (key : string) : pyval :=
  match data with
  | [] => PyNone
  | (k, v) :: rest => if String.eqb k key then v else get rest key
  end.

(** [pd.to_numeric(v, errors='coerce')] on a scalar: a number comes back
    as it is, [None] and an unreadable string come back as NaN, never as
    [None].  A boolean comes back as it is and enters the feature vector
    as 1.0 or 0.0. *)
Definition to_numeric (v : pyval) : float64 R :=
  match v with
  | PyNone => NaN
  | PyBool b => Val (of_bool b)
  | PyNum x => x
  | PyStr s => parse_number s
  end.

Definition is_None (v : pyval) : bool :=
  match v with PyNone => true | _ => false end.

(** [None in values] *)
Definition None_in (values : list pyval) : bool := existsb is_None values.

Definition valid_condition_overallcondition : list string :=
  ["Average"; "Excellent"; "Fair"; "Good"; "Poor"; "Superior"; "Very Good"]%string.

(** [v in strings]: only a string is equal to a string. *)
Definition py_in (v : pyval) (strings : list string) : bool :=
  match v with
  | PyStr s => member s strings
  | _ => false
  end.

(** [sep.join(l)] *)
Fixpoint join (sep : string) (l : list string) : string :=
  match l with
  | [] => EmptyString
  | [x] => x
  | x :: rest => (x ++ sep ++ join sep rest)%string
  end.

Definition not_loaded_msg : string :=
  "The data has not been loaded. Please refresh the data by calling the '/reload' endpoint first.".

Definition missing_msg : string := "Missing or invalid required parameters".

Definition invalid_condition_msg : string :=
  ("Invalid condition_overallcondition. Please choose one of the following: "
   ++ join ", " valid_condition_overallcondition)%string.

Definition invalid_numeric_msg : string :=
  "Invalid numeric values for interior_bedrooms, interior_fullbaths, or interior_halfbaths".

Definition bad_request (msg : string) : Response := mkResponse 400 (JError msg).

(** The finite cells of a vector, or [None] when one is NaN or infinite. *)
Fixpoint all_finite (x : list (float64 R)) : option (list R) :=
  match x with
  | [] => Some []
  | c :: rest =>
      match c, all_finite rest with
      | Val r, Some rs => if isinf r then None else Some (r :: rs)
      | _, _ => None
      end
  end.

(** [model.predict(x.reshape(1, -1))[0]]: the input is validated (finite,
    of the width seen by [fit]) and the linear decision function applied.
    An estimator whose [fit] did not complete raises; which exception
    class depends on the scikit-learn release. *)
Definition model_predict (m : LinearRegression) (x : list (float64 R))
  : result (float64 R) :=
  match m with
  | Unfitted =>
      Raise (NotFittedError "This LinearRegression instance is not fitted yet.")
  | Fitted n p =>
      match all_finite x with
      | None => Raise (ValueError "Input X contains NaN or infinity.")
      | Some xs =>
          if Nat.eqb (length xs) n then Ok (decision p xs)
          else Raise (ValueError "X has a different number of features than LinearRegression is expecting.")
      end
  end.

(** [encoder.transform([[condition]])[0]] *)
Definition transform (enc : OneHotEncoder) (condition : pyval)
  : result (list R) :=
  match condition with
  | PyStr s => encoder_transform enc s
  | _ => Raise (ValueError "Found unknown categories in column 0 during transform")
  end.

(** The handler of [POST /predict] on the JSON object [data]. *)
Definition predict (data : dict) (st : State) : Response * State :=
  match model st, encoder st with
  | Some model, Some encoder =>
      let interior_bedrooms := to_numeric (get data "interior_bedrooms") in
      let interior_fullbaths := to_numeric (get data "interior_fullbaths") in
      let interior_halfbaths := to_numeric (get data "interior_halfbaths") in
      let condition_overallcondition := get data "condition_overallcondition" in
      if None_in [PyNum interior_bedrooms; PyNum interior_fullbaths;
                  PyNum interior_halfbaths; condition_overallcondition]
      then (bad_request missing_msg, st)
      else if negb (py_in condition_overallcondition
                          valid_condition_overallcondition)
      then (bad_request invalid_condition_msg, st)
      else if isna interior_bedrooms || isna interior_fullbaths
              || isna interior_halfbaths
      then (bad_request invalid_numeric_msg, st)
      else
        let attempt :=
          condition_overallcondition_encoded <-
            transform encoder condition_overallcondition ;;
          let input_data :=
            [interior_bedrooms; interior_fullbaths; interior_halfbaths]
            ++ map Val condition_overallcondition_encoded in
          model_predict model input_data in
        match attempt with
        | Ok predicted_assessedvalue =>
            (mkResponse 200 (JPredicted predicted_assessedvalue), st)
        | Raise e => (mkResponse 500 (JError (str e)), st)
        end
  | _, _ => (bad_request not_loaded_msg, st)
  end.

(** ** Requests in sequence *)

Inductive Request : Type :=
| Reload (upstream : result (list CsvRow))
| Predict (data : dict).

Definition handle (rq : Request) (st : State) : Response * State :=
  match rq with
  | Reload upstream => reload_data upstream st
  | Predict data => predict data st
  end.

(** The state after serving the requests one after the other. *)
Definition serve (rqs : list Request) (st : State) : State :=
  fold_left (fun st rq => snd (handle rq st)) rqs st.

(** ** Vocabulary of the properties *)

(** [st] is the state a reload left behind when it answered 200. *)
Definition reloaded (st : State) : Prop :=
  exists upstream st0 summary,
    reload_data upstream st0 = (mkResponse 200 (JSummary summary), st).

(** A line of the fetched data has a value in each of the five required
    columns; its other columns play no part. *)
Definition required_present (c : CsvRow) : bool :=
  negb (isna (csv_assessedvalue c)) && negb (isna (csv_interior_bedrooms c)) &&
  negb (isna (csv_interior_fullbaths c)) &&
  negb (isna (csv_interior_halfbaths c)) &&
  notna_str (csv_condition_overallcondition c).

(** The labels of the rows that [P] keeps out of rows labelled [k],
    [k+1], ... *)
Definition kept_labels {A} (P : A -> bool) (k : nat) (rows : list A)
  : list nat :=
  map fst (filter (fun p => P (snd p)) (combine (seq k (length rows)) rows)).

(** The order of Python strings the categories are sorted by. *)
Definition str_lt (s t : string) : Prop := String.compare s t = Lt.

(** The JSON object has no member [key]. *)
Definition absent (key : string) (data : dict) : Prop :=
  ~ In key (map fst data).



(** [s] occurs in [msg]. *)
Fixpoint contains (s msg : string) : bool :=
  String.prefix s msg ||
  match msg with
  | EmptyString => false
  | String _ rest => contains s rest
  end.

End App.

(** ** An instance of the interface

    Integer cells, no infinity, and a solver that fits the intercept only:
    enough to run the handlers on concrete frames and requests. *)
Module IntegerLib.

Definition digit (c : ascii) : option Z :=
  let n := nat_of_ascii c in
  if (48 <=? n) && (n <=? 57) then Some (Z.of_nat (n - 48)) else None.

Fixpoint digits (s : string) (acc : Z) : float64 Z :=
  match s with
  | EmptyString => Val acc
  | String c rest =>
      match digit c with
      | Some d => digits rest (10 * acc + d)
      | None => NaN
      end
  end.

Definition parse_numberZ (s : string) : float64 Z :=
  match s with
  | EmptyString => NaN
  | _ => digits s 0
  end.

Definition total (l : list Z) : Z := fold_right Z.add 0%Z l.

Definition meanZ (l : list Z) : float64 Z :=
  match l with
  | [] => NaN
  | _ => Val (total l / Z.of_nat (length l))%Z
  end.

Definition minimumZ (l : list Z) : float64 Z :=
  match l with
  | [] => NaN
  | x :: rest => Val (fold_right Z.min x rest)
  end.

Definition maximumZ (l : list Z) : float64 Z :=
  match l with
  | [] => NaN
  | x :: rest => Val (fold_right Z.max x rest)
  end.

Fixpoint insert_sorted (x : Z) (l : list Z) : list Z :=
  match l with
  | [] => [x]
  | y :: rest => if (x <=? y)%Z then x :: l else y :: insert_sorted x rest
  end.

Definition medianZ (l : list Z) : float64 Z :=
  match l with
  | [] => NaN
  | x :: _ => Val (nth (length l / 2) (fold_right insert_sorted [] l) x)
  end.

Fixpoint bump (s : string) (counts : list (string * nat)) : list (string * nat) :=
  match counts with
  | [] => [(s, 1)]
  | (k, n) :: rest =>
      if String.eqb k s then (k, S n) :: rest else (k, n) :: bump s rest
  end.

Fixpoint insert_by_count (e : string * nat) (l : list (string * nat))
  : list (string * nat) :=
  match l with
  | [] => [e]
  | f :: rest =>
      if snd f <? snd e then e :: l else f :: insert_by_count e rest
  end.

Definition value_counts_headZ (col : list string) : list (string * nat) :=
  firstn 5 (fold_right insert_by_count []
              (fold_left (fun counts s => bump s counts) col [])).

Definition lstsqZ (X : list (list Z)) (y : list Z) : option Z :=
  match meanZ y with
  | Val m => Some m
  | NaN => None
  end.

Definition lib : Lib := {|
  R := Z;
  isinf := fun _ => false;
  of_bool := fun b => if b then 1%Z else 0%Z;
  parse_number := parse_numberZ;
  to_int := fun x => Some x;
  median := medianZ;
  mean := meanZ;
  minimum := minimumZ;
  maximum := maximumZ;
  value_counts_head := value_counts_headZ;
  Params := Z;
  lstsq := lstsqZ;
  decision := fun p _ => Val p;
  of_bool_finite := fun _ => eq_refl
|}.

(** A frame and requests to run the handlers on, shaped like the ones of
    [tests/test_app.py]. *)
Definition house (value bedrooms fullbaths halfbaths : Z) (condition : string)
  : @CsvRow lib :=
  mkCsvRow (L := lib) (Val value) (Val bedrooms) (Val fullbaths)
           (Val halfbaths) (Some condition) [].

Definition good_house : @CsvRow lib := house 500000 3 2 1 "Good".
Definition fair_house : @CsvRow lib := house 300000 2 1 0 "Fair".

(** A line whose bedroom count is missing. *)
Definition gap : @CsvRow lib :=
  mkCsvRow (L := lib) (Val 100000%Z) NaN (Val 1%Z) (Val 0%Z) (Some "Poor"%string)
           [].

Definition request (bedrooms fullbaths halfbaths : Z) (condition : string)
  : @dict lib :=
  [("interior_bedrooms"%string, PyNum (L := lib) (Val bedrooms));
   ("interior_fullbaths"%string, PyNum (L := lib) (Val fullbaths));
   ("interior_halfbaths"%string, PyNum (L := lib) (Val halfbaths));
   ("condition_overallcondition"%string, PyStr (L := lib) condition)].

Definition valid_input : @dict lib := request 2 1 1 "Good".

Definition invalid_condition_overallcondition_input : @dict lib :=
  request 2 1 1 "good".

Definition missing_field_input : @dict lib :=
  [("interior_bedrooms"%string, PyNum (L := lib) (Val 2%Z));
   ("interior_fullbaths"%string, PyNum (L := lib) (Val 1%Z));
   ("condition_overallcondition"%string, PyStr (L := lib) "Good"%string)].

(** The state after a first reload whose data holds one house, in
    condition Good. *)
(** A first line with a gap, then two complete lines. *)
Definition gap_first : list (@CsvRow lib) := [gap; good_house; fair_house].

Definition four_lines : list (@CsvRow lib) :=
  [good_house; fair_house; good_house; gap].

Definition after_reload : @State lib :=
  snd (reload_data (L := lib) (Ok [good_house]) (initial (L := lib) [])).

End IntegerLib.

(** ** An instance with an infinity

    The integers and one infinite value, to run the handlers on data that
    holds [inf]. *)
Module InfinityLib.

Definition finite (l : list (option Z)) : list Z :=
  flat_map (fun x => match x with Some z => [z] | None => [] end) l.

Definition lift (x : float64 Z) : float64 (option Z) :=
  match x with
  | Val z => Val (Some z)
  | NaN => NaN
  end.

Definition parse_number_inf (s : string) : float64 (option Z) :=
  if String.eqb s "inf" then Val None else lift (IntegerLib.parse_numberZ s).

Definition lstsq_inf (X : list (list (option Z))) (y : list (option Z))
  : option Z :=
  IntegerLib.lstsqZ [] (finite y).

Definition lib : Lib := {|
  R := option Z;
  isinf := fun x => match x with None => true | Some _ => false end;
  of_bool := fun b => Some (if b then 1%Z else 0%Z);
  parse_number := parse_number_inf;
  to_int := fun x => x;
  median := fun l => lift (IntegerLib.medianZ (finite l));
  mean := fun l => lift (IntegerLib.meanZ (finite l));
  minimum := fun l => lift (IntegerLib.minimumZ (finite l));
  maximum := fun l => lift (IntegerLib.maximumZ (finite l));
  value_counts_head := IntegerLib.value_counts_headZ;
  Params := Z;
  lstsq := lstsq_inf;
  decision := fun p _ => Val (Some p);
  of_bool_finite := fun _ => eq_refl
|}.

Definition good_house : @CsvRow lib :=
  mkCsvRow (L := lib) (Val (Some 500000%Z)) (Val (Some 3%Z)) (Val (Some 2%Z))
           (Val (Some 1%Z)) (Some "Good"%string) [].

(** A request whose bedroom count is the string [inf]. *)
Definition infinite_input : @dict lib :=
  [("interior_bedrooms"%string, PyStr (L := lib) "inf"%string);
   ("interior_fullbaths"%string, PyNum (L := lib) (Val (Some 1%Z)));
   ("interior_halfbaths"%string, PyNum (L := lib) (Val (Some 1%Z)));
   ("condition_overallcondition"%string, PyStr (L := lib) "Good"%string)].

Definition after_reload : @State lib :=
  snd (reload_data (L := lib) (Ok [good_house]) (initial (L := lib) [])).

End InfinityLib.

(** * Properties *)

(** ** Reading the request *)

Lemma get_absent {L : Lib} (key : string) (data : dict) :
  absent key data -> get data key = PyNone.
Proof.
  unfold absent. induction data as [|[k v] rest IH]; simpl; intro H.
  - reflexivity.
  - destruct (String.eqb_spec k key) as [->|_].
    + exfalso. apply H. now left.
    + apply IH. intro Hin. apply H. now right.
Qed.

Lemma member_In (s : string) (l : list string) :
  member s l = true <-> In s l.
Proof.
  unfold member. rewrite existsb_exists. split.
  - intros (x & Hx & E). apply String.eqb_eq in E. now subst.
  - intro H. exists s. split; [assumption | apply String.eqb_refl].
Qed.

(** ** A reload that answered 200 *)

Lemma reload_200_inv {L : Lib} upstream st0 b st :
  reload_data upstream st0 = (mkResponse 200 b, st) ->
  exists csv rows df enc p,
    upstream = Ok csv /\
    add_all 1 (dropna (read_csv csv)) = Ok rows /\
    preprocess_data (dropna (read_csv csv)) = Ok (df, enc) /\
    lstsq (map X_row df) (map f_assessedvalue df) = Some p /\
    b = JSummary (summary_of (dropna (read_csv csv))) /\
    st = mkState rows (Some (Fitted (length (X_columns enc)) p)) (Some enc).
Proof.
  unfold reload_data, internal_server_error.
  destruct upstream as [csv|e]; [|discriminate].
  destruct (add_all 1 (dropna (read_csv csv))) as [rows|e] eqn:Ha;
    [|discriminate].
  destruct (preprocess_data (dropna (read_csv csv))) as [[df enc]|e] eqn:Hp;
    [|discriminate].
  unfold fit.
  destruct (map X_row df) as [|x X] eqn:HX; [discriminate|].
  destruct (forallb no_inf (x :: X) && no_inf (map f_assessedvalue df));
    [|discriminate].
  destruct (lstsq (x :: X) (map f_assessedvalue df)) as [p|] eqn:Hl;
    [|discriminate].
  intro H. inversion H; subst. clear H.
  exists csv, rows, df, enc, p. rewrite HX.
  repeat split; reflexivity || assumption.
Qed.

Lemma reloaded_loaded {L : Lib} st :
  reloaded st ->
  exists p enc,
    model st = Some (Fitted (length (X_columns enc)) p) /\
    encoder st = Some enc.
Proof.
  intros (upstream & st0 & summary & H).
  apply reload_200_inv in H.
  destruct H as (csv & rows & df & enc & p & _ & _ & _ & _ & _ & ->).
  exists p, enc. split; reflexivity.
Qed.

(** ** [predict] only reads *)

Lemma predict_state {L : Lib} data st : snd (predict data st) = st.
Proof.
  unfold predict.
  destruct (model st), (encoder st); try reflexivity.
  repeat match goal with
         | |- context [if ?c then _ else _] => destruct c
         | |- context [match ?r with Ok _ => _ | Raise _ => _ end] => destruct r
         end; reflexivity.
Qed.


(** ** The checks of [predict], in their order *)

(** With both globals set, [predict] is its chain of checks. *)
Lemma predict_loaded {L : Lib} data st m enc :
  model st = Some m -> encoder st = Some enc ->
  predict data st =
  let b := to_numeric (get data "interior_bedrooms") in
  let f := to_numeric (get data "interior_fullbaths") in
  let h := to_numeric (get data "interior_halfbaths") in
  let c := get data "condition_overallcondition" in
  if is_None c then (bad_request missing_msg, st)
  else if negb (py_in c valid_condition_overallcondition)
  then (bad_request invalid_condition_msg, st)
  else if isna b || isna f || isna h
  then (bad_request invalid_numeric_msg, st)
  else
    match (ind <- transform enc c ;; model_predict m ([b; f; h] ++ map Val ind)) with
    | Ok v => (mkResponse 200 (JPredicted v), st)
    | Raise e => (mkResponse 500 (JError (str e)), st)
    end.
Proof.
  intros Hm He. unfold predict, None_in. rewrite Hm, He. cbn [existsb is_None].
  rewrite orb_false_r. reflexivity.
Qed.

Lemma py_in_spec {L : Lib} (v : pyval) (l : list string) :
  py_in v l = true <-> exists s, v = PyStr s /\ In s l.
Proof.
  destruct v as [|b|x|s]; simpl; split;
    try discriminate; try (intros (s' & E & _); discriminate).
  - intro H. exists s. split; [reflexivity | now apply member_In].
  - intros (s' & E & H). inversion E; subst. now apply member_In.
Qed.

Lemma py_in_false {L : Lib} (v : pyval) (l : list string) :
  (forall s, In s l -> v <> PyStr s) -> py_in v l = false.
Proof.
  intro H. destruct (py_in v l) eqn:E; [|reflexivity].
  apply py_in_spec in E. destruct E as (s & -> & Hin).
  exfalso. exact (H s Hin eq_refl).
Qed.

Lemma is_None_false {L : Lib} (v : pyval) : v <> PyNone -> is_None v = false.
Proof. destruct v; simpl; congruence. Qed.

(** An absent or [null] numeric field is coerced to NaN. *)
Lemma to_numeric_None {L : Lib} : to_numeric PyNone = NaN.
Proof. reflexivity. Qed.

(** ** C10 *)

(** C10.  Every [predict] call, whatever it answers (200, 400 or 500),
    leaves the shared state as it found it: the model, the encoder and
    the table are the same after the call as before. *)
Theorem predict_leaves_state_unchanged {L : Lib} (data : dict) (st : State) :
  let st' := snd (predict data st) in
  model st' = model st /\ encoder st' = encoder st /\ table st' = table st.
Proof.
  cbv zeta. rewrite predict_state. repeat split.
Qed.

Lemma serve_predicts {L : Lib} (earlier : list dict) (st : State) :
  serve (map Predict earlier) st = st.
Proof.
  unfold serve. induction earlier as [|d rest IH]; simpl.
  - reflexivity.
  - rewrite predict_state. exact IH.
Qed.

(** ** C9 *)


(** ** C7 *)

Lemma not_loaded_first {L : Lib} (data : dict) (st : State) :
  model st = None \/ encoder st = None ->
  predict data st = (bad_request not_loaded_msg, st).
Proof.
  intros [H|H]; unfold predict; rewrite H; [reflexivity|].
  destruct (model st); reflexivity.
Qed.

(** In a process that has served [predict] requests only, every further
    one is answered with the not-loaded error. *)
Lemma predict_before_any_reload {L : Lib} t (earlier : list dict) data :
  fst (predict data (serve (map Predict earlier) (initial t)))
  = mkResponse 400 (JError not_loaded_msg).
Proof.
  rewrite serve_predicts, not_loaded_first; [reflexivity | now left].
Qed.



(** ** C8 *)

(** C8.  After a successful reload, a request whose condition value is
    not exactly one of the seven literals (compared as it is, without any
    change of case) is answered 400 with a message containing
    "Invalid condition_overallcondition". *)
Theorem predict_invalid_condition {L : Lib} (data : dict) (st : State)
  (v : pyval) :
  reloaded st ->
  get data "condition_overallcondition" = v ->
  v <> PyNone ->
  (forall s, In s valid_condition_overallcondition -> v <> PyStr s) ->
  predict data st = (mkResponse 400 (JError invalid_condition_msg), st) /\
  contains "Invalid condition_overallcondition" invalid_condition_msg = true.
Proof.
  intros Hr Hv Hnone Hnot.
  destruct (reloaded_loaded st Hr) as (p & enc & Hm & He).
  split; [|reflexivity].
  rewrite (predict_loaded data st _ _ Hm He). cbv zeta.
  rewrite Hv, (is_None_false v Hnone), (py_in_false v _ Hnot). reflexivity.
Qed.

Lemma predict_invalid_condition_witness :
  reloaded (L := IntegerLib.lib) IntegerLib.after_reload /\
  predict (L := IntegerLib.lib)
    IntegerLib.invalid_condition_overallcondition_input IntegerLib.after_reload
  = (mkResponse 400 (JError invalid_condition_msg), IntegerLib.after_reload).
Proof.
  assert (Hr : reloaded (L := IntegerLib.lib) IntegerLib.after_reload).
  { exists (Ok [IntegerLib.good_house]), (initial (L := IntegerLib.lib) []).
    eexists. vm_compute. reflexivity. }
  split; [exact Hr|].
  apply (predict_invalid_condition (L := IntegerLib.lib)
           IntegerLib.invalid_condition_overallcondition_input
           IntegerLib.after_reload (PyStr "good") Hr).
  - reflexivity.
  - discriminate.
  - intros s Hs E. inversion E; subst. vm_compute in Hs.
    repeat (destruct Hs as [Hs|Hs]; [discriminate|]). exact Hs.
Defined.

(** ** C5 *)

(** C5.  After a successful reload, a request that lacks one of the three
    numeric fields while its condition is one of the seven literals is
    answered 400 with a message containing "Invalid numeric values". *)
Theorem predict_missing_numeric_field {L : Lib} (data : dict) (st : State)
  (s : string) :
  reloaded st ->
  get data "condition_overallcondition" = PyStr s ->
  In s valid_condition_overallcondition ->
  absent "interior_bedrooms" data \/ absent "interior_fullbaths" data \/
  absent "interior_halfbaths" data ->
  predict data st = (mkResponse 400 (JError invalid_numeric_msg), st) /\
  contains "Invalid numeric values" invalid_numeric_msg = true.
Proof.
  intros Hr Hc Hs Habs.
  destruct (reloaded_loaded st Hr) as (p & enc & Hm & He).
  split; [|reflexivity].
  rewrite (predict_loaded data st _ _ Hm He). cbv zeta.
  rewrite Hc. cbn [is_None py_in].
  apply member_In in Hs. rewrite Hs. cbn [negb].
  assert (Hnan : isna (to_numeric (get data "interior_bedrooms"))
                 || isna (to_numeric (get data "interior_fullbaths"))
                 || isna (to_numeric (get data "interior_halfbaths")) = true).
  { destruct Habs as [H|[H|H]]; rewrite (get_absent _ _ H); simpl;
      rewrite ?orb_true_r; reflexivity. }
  rewrite Hnan. reflexivity.
Qed.

Lemma predict_missing_numeric_field_witness :
  reloaded (L := IntegerLib.lib) IntegerLib.after_reload /\
  absent (L := IntegerLib.lib) "interior_halfbaths"
         IntegerLib.missing_field_input /\
  predict (L := IntegerLib.lib) IntegerLib.missing_field_input
          IntegerLib.after_reload
  = (mkResponse 400 (JError invalid_numeric_msg), IntegerLib.after_reload).
Proof.
  assert (Hr : reloaded (L := IntegerLib.lib) IntegerLib.after_reload).
  { exists (Ok [IntegerLib.good_house]), (initial (L := IntegerLib.lib) []).
    eexists. vm_compute. reflexivity. }
  assert (Ha : absent (L := IntegerLib.lib) "interior_halfbaths"
                      IntegerLib.missing_field_input).
  { intro H. vm_compute in H.
    repeat (destruct H as [H|H]; [discriminate|]). exact H. }
  split; [exact Hr|]. split; [exact Ha|].
  apply (predict_missing_numeric_field (L := IntegerLib.lib)
           IntegerLib.missing_field_input IntegerLib.after_reload "Good" Hr).
  - reflexivity.
  - vm_compute. tauto.
  - right. right. exact Ha.
Defined.

(** ** C4 *)




(** ** C3 *)

Lemma all_finite_onehot {L : Lib} (cats : list string) (s : string) :
  all_finite (map Val (onehot cats s)) = Some (onehot cats s).
Proof.
  unfold onehot. induction cats as [|c cats IH]; simpl.
  - reflexivity.
  - rewrite IH, of_bool_finite. reflexivity.
Qed.

Lemma length_onehot {L : Lib} (cats : list string) (s : string) :
  length (onehot cats s) = length cats.
Proof. unfold onehot. apply length_map. Qed.

Lemma length_X_columns {L : Lib} (enc : OneHotEncoder) :
  length (X_columns enc) = 3 + length (categories_ enc).
Proof.
  unfold X_columns, feature_names_out. rewrite length_app, length_map.
  reflexivity.
Qed.




(** ** C6 *)

Lemma filter_combine_seq {A} (P : A -> bool) (l : list A) (k : nat) :
  map snd (filter (fun p => P (snd p)) (combine (seq k (length l)) l))
  = filter P l.
Proof.
  revert k. induction l as [|a l IH]; intro k; simpl.
  - reflexivity.
  - destruct (P a); simpl; rewrite IH; reflexivity.
Qed.

Lemma filter_map {A B} (P : B -> bool) (f : A -> B) (l : list A) :
  filter P (map f l) = map f (filter (fun a => P (f a)) l).
Proof.
  induction l as [|a l IH]; simpl.
  - reflexivity.
  - destruct (P (f a)); simpl; rewrite IH; reflexivity.
Qed.

(** The rows [dropna] keeps of the fetched frame are the complete lines,
    in their order. *)
Lemma dropna_read_csv {L : Lib} (csv : list CsvRow) :
  map snd (dropna (read_csv csv))
  = map select_columns (filter required_present csv).
Proof.
  unfold dropna, read_csv.
  rewrite <- (length_map select_columns csv).
  rewrite (filter_combine_seq complete), filter_map. reflexivity.
Qed.

(** C6.  A reload that answers 200 was given upstream data, and the
    [total_assessments] of its summary is the number of fetched lines that
    have a value in each of the five required columns. *)
Theorem reload_total_assessments {L : Lib} (upstream : result (list CsvRow))
  (st0 st : State) (summary : Summary) :
  reload_data upstream st0 = (mkResponse 200 (JSummary summary), st) ->
  exists csv,
    upstream = Ok csv /\ csv <> [] /\
    total_assessments summary = length (filter required_present csv).
Proof.
  intro H. apply reload_200_inv in H.
  destruct H as (csv & rows & df & enc & p & -> & _ & Hp & _ & Hs & _).
  exists csv. split; [reflexivity|]. split.
  - intros ->. discriminate Hp.
  - inversion Hs; subst summary. cbn [summary_of total_assessments].
    rewrite <- (length_map snd), dropna_read_csv. apply length_map.
Qed.

Lemma reload_total_assessments_witness :
  exists summary st,
    reload_data (L := IntegerLib.lib) (Ok IntegerLib.four_lines) (initial [])
    = (mkResponse 200 (JSummary summary), st) /\
    total_assessments summary = 3.
Proof.
  eexists. eexists. split.
  - vm_compute. reflexivity.
  - destruct (reload_total_assessments (L := IntegerLib.lib)
                (Ok IntegerLib.four_lines) (initial [])
                (snd (reload_data (L := IntegerLib.lib)
                                  (Ok IntegerLib.four_lines) (initial [])))
                (summary_of (L := IntegerLib.lib)
                   (dropna (read_csv IntegerLib.four_lines))) eq_refl)
      as (csv & E & _ & Ht).
    inversion E; subst csv. exact Ht.
Defined.

(** ** C2 *)




(** An answer 200 of [predict] comes from a fitted model. *)
Lemma predict_200_fitted {L : Lib} (data : dict) (st : State) (b : Body) :
  fst (predict data st) = mkResponse 200 b ->
  exists m enc, model st = Some m /\ encoder st = Some enc /\ m <> Unfitted.
Proof.
  destruct (model st) as [m|] eqn:Hm;
    [|rewrite (not_loaded_first data st (or_introl Hm)); discriminate].
  destruct (encoder st) as [enc|] eqn:He;
    [|rewrite (not_loaded_first data st (or_intror He)); discriminate].
  rewrite (predict_loaded data st m enc Hm He). cbv zeta.
  intro H. exists m, enc. repeat split. intros ->.
  revert H.
  repeat match goal with
         | |- context [if ?c then _ else _] => destruct c
         end; try discriminate.
  destruct (transform enc _); cbn [bind model_predict fst]; discriminate.
Qed.



(** ** C1 *)

Lemma complete_inv {L : Lib} (r : Row) :
  complete r = true ->
  exists a b f h s, r = mkRow (Val a) (Val b) (Val f) (Val h) (Some s).
Proof.
  destruct r as [[|a] [|b] [|f] [|h] [s|]]; simpl; try discriminate.
  intros _. now exists a, b, f, h, s.
Qed.

Lemma dropna_complete {L : Lib} (df : Frame) :
  Forall (fun p => complete (snd p) = true) (dropna df).
Proof.
  apply Forall_forall. intros p H. apply filter_In in H. apply H.
Qed.

Lemma dropna_idempotent {L : Lib} (df : Frame) : dropna (dropna df) = dropna df.
Proof.
  unfold dropna. induction df as [|p df IH]; simpl.
  - reflexivity.
  - destruct (complete (snd p)) eqn:E; simpl; rewrite ?E, IH; reflexivity.
Qed.

Lemma map_fixed {A} (g : A -> A) (P : A -> Prop) (l : list A) :
  (forall a, P a -> g a = a) -> Forall P l -> map g l = l.
Proof.
  intros Hg H. induction H as [|a l Ha _ IH]; simpl.
  - reflexivity.
  - rewrite (Hg a Ha), IH. reflexivity.
Qed.

Ltac fill_is_identity :=
  intros [l r] H; cbn [fst snd] in *;
  destruct (complete_inv r H) as (a & b & f & h & s & ->); reflexivity.

(** On a frame without missing cells the three median fills change
    nothing. *)
Lemma fill_bedrooms_complete {L : Lib} (df : Frame) :
  Forall (fun p => complete (snd p) = true) df -> fill_bedrooms df = df.
Proof. unfold fill_bedrooms. apply map_fixed. fill_is_identity. Qed.

Lemma fill_fullbaths_complete {L : Lib} (df : Frame) :
  Forall (fun p => complete (snd p) = true) df -> fill_fullbaths df = df.
Proof. unfold fill_fullbaths. apply map_fixed. fill_is_identity. Qed.

Lemma fill_halfbaths_complete {L : Lib} (df : Frame) :
  Forall (fun p => complete (snd p) = true) df -> fill_halfbaths df = df.
Proof. unfold fill_halfbaths. apply map_fixed. fill_is_identity. Qed.

Lemma insert_unique_nonempty (s : string) (l : list string) :
  insert_unique s l <> [].
Proof.
  destruct l as [|x l]; simpl; [discriminate|].
  destruct (String.compare s x) eqn:E; try discriminate.
Qed.

(** [mode()[0]] exists as soon as the frame has a complete row. *)
Lemma mode0_complete {L : Lib} (df : Frame) :
  df <> [] -> Forall (fun p => complete (snd p) = true) df ->
  exists m, mode0 (map (fun p => condition_overallcondition (snd p)) df) = Ok m.
Proof.
  intros Hne H. destruct df as [|[l r] df]; [contradiction|].
  inversion H as [|? ? Hr _]; subst. cbn [snd] in Hr.
  destruct (complete_inv r Hr) as (a & b & f & h & s & ->).
  unfold mode0. cbn [map snd condition_overallcondition present flat_map app].
  unfold sorted_unique. cbn [fold_right].
  destruct (insert_unique s _) as [|c cs] eqn:E.
  - exfalso. exact (insert_unique_nonempty _ _ E).
  - eexists. reflexivity.
Qed.

(** The labels 0, 1, 2, ... of [encoded_df]: the row found under label [l]
    is the one at position [l]. *)
Lemma lookup_range {A} (rows : list A) (k l : nat) :
  lookup l (combine (seq k (length rows)) rows)
  = if l <? k then None else nth_error rows (l - k).
Proof.
  revert k. induction rows as [|a rows IH]; intro k; simpl.
  - destruct (l <? k); [reflexivity|]. now destruct (l - k).
  - destruct (Nat.eqb_spec k l) as [->|Hne].
    + rewrite Nat.ltb_irrefl, Nat.sub_diag. reflexivity.
    + rewrite IH. destruct (Nat.ltb_spec l k) as [Hlt|Hge].
      * destruct (Nat.ltb_spec l (S k)); [reflexivity | lia].
      * destruct (Nat.ltb_spec l (S k)); [lia|].
        replace (l - k) with (S (l - S k)) by lia. reflexivity.
Qed.

(** The rows that exist on the encoded side only are all dropped by the
    final [dropna]. *)
Lemma dropna_joined_right_only {L : Lib} (qs : list (nat * list R)) :
  dropna_joined (map (fun q => mkJoined (fst q) None (Some (snd q))) qs) = [].
Proof. induction qs as [|q qs IH]; simpl; [reflexivity | exact IH]. Qed.

Lemma dropna_joined_concat {L : Lib} (df : Frame) (encoded : list (list R)) :
  dropna_joined (concat_axis1 df (combine (seq 0 (length encoded)) encoded))
  = flat_map
      (fun p => dropna_joined_row
                  (mkJoined (fst p) (Some (snd p)) (nth_error encoded (fst p))))
      df.
Proof.
  unfold dropna_joined, concat_axis1. rewrite flat_map_app.
  fold (dropna_joined
    (map (fun q => mkJoined (fst q) None (Some (snd q)))
       (filter (fun q => negb (existsb (Nat.eqb (fst q)) (index df)))
          (combine (seq 0 (length encoded)) encoded)))).
  rewrite dropna_joined_right_only, app_nil_r, flat_map_concat_map, map_map.
  rewrite <- flat_map_concat_map. apply flat_map_ext. intro p.
  rewrite lookup_range. cbn [Nat.ltb Nat.leb]. rewrite Nat.sub_0_r. reflexivity.
Qed.

(** What [preprocess_data] returns on any frame with a complete row: the
    row labelled [l] is kept when [l] is smaller than the number of
    complete rows, and it then carries the indicator vector of the
    complete row at position [l]. *)
Lemma preprocess_data_by_label {L : Lib} (frame : Frame) :
  dropna frame <> [] ->
  exists m,
    let df := dropna frame in
    let conditions :=
      map (fun p => fill_condition m (condition_overallcondition (snd p))) df in
    let encoder := encoder_fit conditions in
    let encoded := map (onehot (categories_ encoder)) conditions in
    preprocess_data frame =
    Ok (flat_map
          (fun p => dropna_joined_row
             (mkJoined (fst p) (Some (snd p)) (nth_error encoded (fst p))))
          df,
        encoder).
Proof.
  intro Hne. pose proof (dropna_complete frame) as Hc.
  destruct (mode0_complete _ Hne Hc) as (m & Hm).
  exists m. cbv zeta. unfold preprocess_data.
  rewrite (fill_bedrooms_complete _ Hc), (fill_fullbaths_complete _ Hc),
    (fill_halfbaths_complete _ Hc), Hm.
  cbn [bind]. rewrite dropna_joined_concat. reflexivity.
Qed.

Lemma nth_error_range {A} (rows : list A) (k : nat) (p : nat * A) :
  In p (combine (seq k (length rows)) rows) ->
  k <= fst p /\
  nth_error (combine (seq k (length rows)) rows) (fst p - k) = Some p.
Proof.
  revert k. induction rows as [|a rows IH]; intros k H; simpl in *.
  - contradiction.
  - destruct H as [<-|H]; cbn [fst].
    + rewrite Nat.sub_diag. split; [lia | reflexivity].
    + destruct (IH (S k) H) as (Hle & Hn). split; [lia|].
      replace (fst p - k) with (S (fst p - S k)) by lia. exact Hn.
Qed.

Lemma flat_map_ext_In {A B} (f g : A -> list B) (l : list A) :
  (forall a, In a l -> f a = g a) -> flat_map f l = flat_map g l.
Proof.
  induction l as [|a l IH]; intro H; simpl.
  - reflexivity.
  - rewrite (H a (or_introl eq_refl)), IH; [reflexivity|].
    intros b Hb. apply H. now right.
Qed.

Lemma forallb_filter_id {A} (P : A -> bool) (l : list A) :
  forallb P l = true -> filter P l = l.
Proof.
  induction l as [|a l IH]; simpl; [reflexivity|].
  intro H. apply andb_true_iff in H. destruct H as (Ha & Hl).
  rewrite Ha, (IH Hl). reflexivity.
Qed.

Lemma read_csv_complete {L : Lib} (csv : list CsvRow) :
  forallb required_present csv = true -> dropna (read_csv csv) = read_csv csv.
Proof.
  intro H. unfold dropna. apply forallb_filter_id.
  apply forallb_forall. intros [l r] Hp. unfold read_csv in Hp.
  apply in_combine_r, in_map_iff in Hp. destruct Hp as (c & <- & Hc).
  rewrite forallb_forall in H. exact (H c Hc).
Qed.

(** Where the claim of C1 does hold: on fetched data without any gap the
    labels are the positions, every row is kept and each carries the
    indicator vector of its own condition. *)
Lemma preprocess_data_without_gaps {L : Lib} (csv : list CsvRow) :
  csv <> [] -> forallb required_present csv = true ->
  exists out enc,
    preprocess_data (read_csv csv) = Ok (out, enc) /\
    Forall2
      (fun p o =>
         exists a b f h s,
           snd p = mkRow (Val a) (Val b) (Val f) (Val h) (Some s) /\
           o = mkFeatureRow (fst p) a b f h (onehot (categories_ enc) s))
      (read_csv csv) out.
Proof.
  intros Hne Hall. pose proof (read_csv_complete csv Hall) as Hd.
  assert (Hne' : dropna (read_csv csv) <> []).
  { rewrite Hd. unfold read_csv. destruct csv; [contradiction | discriminate]. }
  destruct (preprocess_data_by_label (read_csv csv) Hne') as (m & E).
  cbv zeta in E. rewrite Hd in E.
  set (conditions :=
         map (fun p : nat * Row =>
                fill_condition m (condition_overallcondition (snd p)))
             (read_csv csv)) in E.
  set (enc := encoder_fit conditions) in E.
  assert (Hown : forall p, In p (read_csv csv) ->
            nth_error (map (onehot (categories_ enc)) conditions) (fst p)
            = Some (onehot (categories_ enc)
                      (fill_condition m (condition_overallcondition (snd p))))).
  { intros p Hp. unfold read_csv in Hp.
    rewrite <- (length_map select_columns csv) in Hp.
    destruct (nth_error_range _ 0 p Hp) as (_ & Hn).
    rewrite Nat.sub_0_r, length_map in Hn. fold (read_csv csv) in Hn.
    unfold conditions. rewrite map_map, nth_error_map, Hn. reflexivity. }
  pose proof (dropna_complete (read_csv csv)) as Hc. rewrite Hd in Hc.
  eexists. exists enc. split; [exact E|].
  clear E Hd Hne'. revert Hown.
  generalize (map (onehot (categories_ enc)) conditions). intro encoded.
  clearbody enc. clear conditions.
  induction Hc as [|[l r] df Hr _ IH]; intro Hown; simpl.
  - constructor.
  - pose proof (Hown (l, r) (or_introl eq_refl)) as Hl.
    cbn [fst snd] in Hl. rewrite Hl. clear Hl.
    cbn [snd] in Hr. destruct (complete_inv r Hr) as (a & b & f & h & s & ->).
    cbn [dropna_joined_row j_left j_right assessedvalue interior_bedrooms
         interior_fullbaths interior_halfbaths j_label app fst snd
         condition_overallcondition fill_condition].
    constructor.
    + exists a, b, f, h, s. split; reflexivity.
    + apply IH. intros p Hp. apply Hown. now right.
Qed.

(** C1, at an input that breaks it.  The first fetched line lacks its
    bedroom count; the two complete lines keep the labels 1 and 2, the
    encoded frame is labelled 0 and 1.  [preprocess_data] returns one row
    instead of the two that survive the missing-value drop, and that row,
    a house in condition Good, carries the indicator vector of Fair. *)
Theorem preprocess_data_loses_rows_and_alignment :
  let frame := read_csv (L := IntegerLib.lib) IntegerLib.gap_first in
  index (dropna frame) = [1; 2] /\
  preprocess_data frame
  = Ok ([mkFeatureRow (L := IntegerLib.lib) 1 500000%Z 3%Z 2%Z 1%Z [1%Z; 0%Z]],
        mkEncoder ["Fair"%string; "Good"%string]) /\
  onehot (L := IntegerLib.lib) ["Fair"%string; "Good"%string] "Good"
  = [0%Z; 1%Z] /\
  onehot (L := IntegerLib.lib) ["Fair"%string; "Good"%string] "Fair"
  = [1%Z; 0%Z].
Proof. vm_compute. repeat split. Qed.

(** The same gap met by [/reload]: with a gap in the first line and one
    complete line, no row is left to train on, [fit] raises, and the
    globals keep the new encoder and the unfitted estimator; [predict] on
    the valid input then answers 500. *)
Lemma reload_raising_in_fit :
  let st := snd (reload_data (L := IntegerLib.lib)
                   (Ok [IntegerLib.gap; IntegerLib.good_house]) (initial [])) in
  status_code (fst (reload_data (L := IntegerLib.lib)
                      (Ok [IntegerLib.gap; IntegerLib.good_house]) (initial [])))
  = 500 /\
  model st = Some Unfitted /\
  encoder st = Some (mkEncoder ["Good"%string]) /\
  status_code (fst (predict (L := IntegerLib.lib) IntegerLib.valid_input st))
  = 500.
Proof. vm_compute. repeat split. Qed.

(** * Further properties of the pipeline *)

(** ** Labels of the fetched frame *)

Lemma in_range_iff {A} (rows : list A) (k l : nat) (a : A) :
  In (l, a) (combine (seq k (length rows)) rows) <->
  k <= l /\ nth_error rows (l - k) = Some a.
Proof.
  revert k. induction rows as [|x rows IH]; intro k; simpl.
  - split; [contradiction|]. intros (_ & H). now destruct (l - k).
  - rewrite IH. split.
    + intros [E|(Hle & Hn)].
      * inversion E; subst. rewrite Nat.sub_diag. split; [lia | reflexivity].
      * split; [lia|]. replace (l - k) with (S (l - S k)) by lia. exact Hn.
    + intros (Hle & Hn). destruct (Nat.eq_dec k l) as [->|Hne].
      * rewrite Nat.sub_diag in Hn. inversion Hn. now left.
      * right. split; [lia|].
        replace (l - k) with (S (l - S k)) in Hn by lia. exact Hn.
Qed.

(** The frame [/reload] works on holds exactly the fetched lines that are
    complete in the five columns, and each keeps as its index label the
    position it had in the download; nothing renumbers the rows. *)
Theorem dropna_keeps_download_positions {L : Lib} (csv : list CsvRow)
  (l : nat) (r : Row) :
  In (l, r) (dropna (read_csv csv)) <->
  exists c,
    nth_error csv l = Some c /\ select_columns c = r /\
    required_present c = true.
Proof.
  unfold dropna. rewrite filter_In. cbn [snd]. unfold read_csv.
  rewrite <- (length_map select_columns csv), in_range_iff, Nat.sub_0_r.
  rewrite nth_error_map. split.
  - intros ((_ & Hn) & Hc). destruct (nth_error csv l) as [c|]; [|discriminate].
    inversion Hn; subst. exists c. repeat split. exact Hc.
  - intros (c & Hn & <- & Hc). rewrite Hn. repeat split; [lia | exact Hc].
Qed.

(** ** When [preprocess_data] raises *)

Lemma preprocess_data_empty {L : Lib} (frame : Frame) :
  dropna frame = [] -> preprocess_data frame = Raise (KeyError "0").
Proof. intro H. unfold preprocess_data. rewrite H. reflexivity. Qed.


(** ** The defensive fills *)

Lemma present_complete {L : Lib} (df : Frame) (m : string) :
  Forall (fun p => complete (snd p) = true) df ->
  map (fun p => fill_condition m (condition_overallcondition (snd p))) df
  = present (map (fun p => condition_overallcondition (snd p)) df).
Proof.
  intro H. induction H as [|[l r] df Hr _ IH]; simpl; [reflexivity|].
  cbn [snd] in Hr. destruct (complete_inv r Hr) as (a & b & f & h & s & ->).
  simpl. rewrite IH. reflexivity.
Qed.

(** The median fills of the three numeric columns and the mode fill of the
    condition column never change a cell: after the required-column drop
    there is nothing left to fill, whatever median and mode are. *)
Theorem fills_change_nothing {L : Lib} (frame : Frame) (m : string) :
  fill_halfbaths (fill_fullbaths (fill_bedrooms (dropna frame))) = dropna frame /\
  map (fun p => fill_condition m (condition_overallcondition (snd p)))
      (dropna frame)
  = present (map (fun p => condition_overallcondition (snd p)) (dropna frame)) /\
  map Some
    (present (map (fun p => condition_overallcondition (snd p)) (dropna frame)))
  = map (fun p => condition_overallcondition (snd p)) (dropna frame).
Proof.
  pose proof (dropna_complete frame) as Hc. split; [|split].
  - rewrite (fill_bedrooms_complete _ Hc), (fill_fullbaths_complete _ Hc).
    exact (fill_halfbaths_complete _ Hc).
  - exact (present_complete _ m Hc).
  - induction Hc as [|[l r] df Hr _ IH]; simpl; [reflexivity|].
    cbn [snd] in Hr. destruct (complete_inv r Hr) as (a & b & f & h & s & ->).
    simpl. rewrite IH. reflexivity.
Qed.

(** ** The category vocabulary *)

Lemma ascii_compare_refl (a : ascii) : Ascii.compare a a = Eq.
Proof. unfold Ascii.compare. apply N.compare_refl. Qed.

Lemma ascii_lt_trans (a b c : ascii) :
  Ascii.compare a b = Lt -> Ascii.compare b c = Lt -> Ascii.compare a c = Lt.
Proof.
  unfold Ascii.compare. rewrite !N.compare_lt_iff. apply N.lt_trans.
Qed.

Lemma str_lt_trans (s1 s2 s3 : string) :
  str_lt s1 s2 -> str_lt s2 s3 -> str_lt s1 s3.
Proof.
  unfold str_lt. revert s2 s3.
  induction s1 as [|a s1 IH]; intros [|b s2] [|c s3]; simpl;
    try discriminate; try reflexivity.
  destruct (Ascii.compare a b) eqn:Hab; try discriminate;
    destruct (Ascii.compare b c) eqn:Hbc; try discriminate; intros H12 H23.
  - apply Ascii.compare_eq_iff in Hab, Hbc. subst.
    rewrite ascii_compare_refl. exact (IH _ _ H12 H23).
  - apply Ascii.compare_eq_iff in Hab. subst. rewrite Hbc. reflexivity.
  - apply Ascii.compare_eq_iff in Hbc. subst. rewrite Hab. reflexivity.
  - rewrite (ascii_lt_trans _ _ _ Hab Hbc). reflexivity.
Qed.

Lemma str_lt_irrefl (s : string) : ~ str_lt s s.
Proof.
  unfold str_lt. induction s as [|a s IH]; simpl; [discriminate|].
  rewrite ascii_compare_refl. exact IH.
Qed.

Lemma insert_unique_In (s x : string) (l : list string) :
  In x (insert_unique s l) <-> x = s \/ In x l.
Proof.
  induction l as [|y l IH]; simpl.
  - intuition.
  - destruct (String.compare s y) eqn:E; simpl.
    + apply String.compare_eq_iff in E. subst. intuition.
    + intuition.
    + rewrite IH. intuition.
Qed.

Lemma insert_unique_sorted (s : string) (l : list string) :
  StronglySorted str_lt l -> StronglySorted str_lt (insert_unique s l).
Proof.
  induction 1 as [|y l Hs IH Hy]; simpl.
  - repeat constructor.
  - destruct (String.compare s y) eqn:E.
    + constructor; assumption.
    + constructor; [constructor; assumption|].
      constructor; [exact E|].
      apply Forall_forall. intros x Hx. rewrite Forall_forall in Hy.
      exact (str_lt_trans _ _ _ E (Hy x Hx)).
    + constructor; [exact IH|].
      apply Forall_forall. intros x Hx. apply insert_unique_In in Hx.
      destruct Hx as [->|Hx].
      * unfold str_lt. rewrite String.compare_antisym, E. reflexivity.
      * rewrite Forall_forall in Hy. exact (Hy x Hx).
Qed.

Lemma sorted_unique_In (s : string) (col : list string) :
  In s (sorted_unique col) <-> In s col.
Proof.
  unfold sorted_unique. induction col as [|x col IH]; simpl.
  - reflexivity.
  - rewrite insert_unique_In, IH. intuition.
Qed.

Lemma sorted_unique_sorted (col : list string) :
  StronglySorted str_lt (sorted_unique col).
Proof.
  unfold sorted_unique. induction col as [|x col IH]; simpl.
  - constructor.
  - apply insert_unique_sorted, IH.
Qed.

Lemma sorted_NoDup (l : list string) : StronglySorted str_lt l -> NoDup l.
Proof.
  induction 1 as [|y l Hs IH Hy]; constructor; [|exact IH].
  intro Hin. rewrite Forall_forall in Hy.
  exact (str_lt_irrefl y (Hy y Hin)).
Qed.

(** The encoder learns one category per distinct value of the column: its
    categories are exactly the values that occur, each once, in ascending
    string order. *)
Theorem encoder_fit_categories {L : Lib} (col : list string) :
  StronglySorted str_lt (categories_ (encoder_fit col)) /\
  NoDup (categories_ (encoder_fit col)) /\
  (forall s, In s (categories_ (encoder_fit col)) <-> In s col).
Proof.
  cbn [encoder_fit categories_]. split; [|split].
  - apply sorted_unique_sorted.
  - apply sorted_NoDup, sorted_unique_sorted.
  - intro s. apply sorted_unique_In.
Qed.

Lemma onehot_other {L : Lib} (cats : list string) (s : string) :
  ~ In s cats -> onehot cats s = map (fun _ => of_bool false) cats.
Proof.
  intro H. unfold onehot. apply map_ext_in. intros c Hc.
  destruct (String.eqb_spec c s) as [->|_]; [contradiction | reflexivity].
Qed.

(** For a value the encoder was fitted on, [transform] gives a vector with
    one position per category, set at the position of the value and clear
    everywhere else; for any other value it raises. *)
Theorem encoder_transform_one_hot {L : Lib} (col : list string) (s : string) :
  (In s col ->
   exists before after,
     categories_ (encoder_fit col) = before ++ s :: after /\
     encoder_transform (encoder_fit col) s
     = Ok (map (fun _ => of_bool false) before
           ++ of_bool true :: map (fun _ => of_bool false) after)) /\
  (~ In s col ->
   encoder_transform (encoder_fit col) s
   = Raise (ValueError (unknown_category_msg s))).
Proof.
  pose proof (sorted_NoDup _ (sorted_unique_sorted col)) as Hnd.
  pose proof (fun s => sorted_unique_In s col) as Hin.
  change (sorted_unique col) with (categories_ (encoder_fit col)) in Hnd, Hin.
  unfold encoder_transform. split; intro H.
  - apply Hin in H. assert (Hm := proj2 (member_In _ _) H). rewrite Hm.
    destruct (in_split _ _ H) as (before & after & E).
    exists before, after. split; [exact E|].
    rewrite E in Hnd |- *. apply NoDup_remove_2 in Hnd.
    unfold onehot at 1. rewrite map_app. cbn [map]. rewrite String.eqb_refl.
    fold (onehot before s). fold (onehot after s).
    rewrite (onehot_other before s), (onehot_other after s); [reflexivity| |];
      intro Hs; apply Hnd, in_or_app; [now right | now left].
  - destruct (member s (categories_ (encoder_fit col))) eqn:M; [|reflexivity].
    apply member_In, Hin in M. contradiction.
Qed.

Lemma encoder_transform_one_hot_witness :
  In "Good"%string ["Good"; "Fair"; "Good"]%string /\
  exists before after,
    categories_ (encoder_fit ["Good"; "Fair"; "Good"]%string)
    = before ++ "Good"%string :: after /\
    encoder_transform (L := IntegerLib.lib)
      (encoder_fit ["Good"; "Fair"; "Good"]%string) "Good"
    = Ok (map (fun _ => of_bool false) before
          ++ of_bool true :: map (fun _ => of_bool false) after).
Proof.
  assert (H : In "Good"%string ["Good"; "Fair"; "Good"]%string)
    by (vm_compute; tauto).
  split; [exact H|].
  exact (proj1 (encoder_transform_one_hot (L := IntegerLib.lib)
                  ["Good"; "Fair"; "Good"]%string "Good") H).
Defined.

(** ** The rows [preprocess_data] returns *)

Lemma preprocess_data_Ok_inv {L : Lib} (frame : Frame) out enc :
  preprocess_data frame = Ok (out, enc) ->
  let df := dropna frame in
  let conditions := present (map (fun p => condition_overallcondition (snd p)) df) in
  enc = encoder_fit conditions /\
  out = flat_map
          (fun p => dropna_joined_row
             (mkJoined (fst p) (Some (snd p))
                (nth_error (map (onehot (categories_ enc)) conditions) (fst p))))
          df.
Proof.
  intro H. cbv zeta.
  assert (Hne : dropna frame <> []).
  { intro E. rewrite (preprocess_data_empty frame E) in H. discriminate. }
  destruct (preprocess_data_by_label frame Hne) as (m & E). cbv zeta in E.
  rewrite (present_complete _ m (dropna_complete frame)) in E.
  rewrite E in H. inversion H; subst. split; reflexivity.
Qed.

Lemma present_nth {L : Lib} (df : Frame) (l : nat) :
  Forall (fun p => complete (snd p) = true) df ->
  nth_error (present (map (fun p => condition_overallcondition (snd p)) df)) l
  = match nth_error df l with
    | Some p => condition_overallcondition (snd p)
    | None => None
    end.
Proof.
  intro H. revert l. induction H as [|[k r] df Hr _ IH]; intro l.
  - now destruct l.
  - cbn [snd] in Hr. destruct (complete_inv r Hr) as (a & b & f & h & s & ->).
    destruct l as [|l]; simpl; [reflexivity | apply IH].
Qed.

(** What the returned frame holds.  A row of it has the label and the four
    numeric cells of a complete input row, and as indicator columns the
    encoding of the condition found at the position equal to that label
    among the complete rows; every such combination is returned.  So a
    complete row whose label is not a position among the complete rows is
    left out, and a row whose label differs from its position carries the
    indicators of another row. *)
Theorem preprocess_data_rows {L : Lib} (frame : Frame)
  (out : list FeatureRow) (enc : OneHotEncoder) :
  preprocess_data frame = Ok (out, enc) ->
  forall o,
    In o out <->
    exists a b f h own at_position s,
      In (f_label o, mkRow (Val a) (Val b) (Val f) (Val h) (Some own))
         (dropna frame) /\
      nth_error (dropna frame) (f_label o) = Some at_position /\
      condition_overallcondition (snd at_position) = Some s /\
      o = mkFeatureRow (f_label o) a b f h (onehot (categories_ enc) s).
Proof.
  intros H o. destruct (preprocess_data_Ok_inv frame out enc H) as (_ & ->).
  pose proof (dropna_complete frame) as Hc.
  rewrite in_flat_map. split.
  - intros ([l r] & Hin & Ho). cbn [fst snd] in Ho.
    rewrite Forall_forall in Hc. pose proof (Hc _ Hin) as Hr. cbn [snd] in Hr.
    destruct (complete_inv r Hr) as (a & b & f & h & own & ->).
    rewrite nth_error_map, present_nth in Ho by (apply Forall_forall; exact Hc).
    destruct (nth_error (dropna frame) l) as [q|] eqn:Hq; [|contradiction].
    destruct (condition_overallcondition (snd q)) as [s|] eqn:Hs;
      [|contradiction].
    destruct Ho as [<-|[]]. cbn [f_label].
    exists a, b, f, h, own, q, s. repeat split; assumption.
  - intros (a & b & f & h & own & q & s & Hin & Hq & Hs & Ho).
    exists (f_label o, mkRow (Val a) (Val b) (Val f) (Val h) (Some own)).
    split; [exact Hin|]. cbn [fst snd].
    rewrite nth_error_map, present_nth, Hq, Hs by exact Hc.
    left. symmetry. exact Ho.
Qed.

Lemma preprocess_data_rows_witness :
  preprocess_data (read_csv (L := IntegerLib.lib) IntegerLib.gap_first)
  = Ok ([mkFeatureRow (L := IntegerLib.lib) 1 500000%Z 3%Z 2%Z 1%Z [1%Z; 0%Z]],
        mkEncoder ["Fair"%string; "Good"%string]) /\
  exists a b f h own at_position s,
    In (1, mkRow (L := IntegerLib.lib) (Val a) (Val b) (Val f) (Val h) (Some own))
       (dropna (read_csv IntegerLib.gap_first)) /\
    nth_error (dropna (read_csv (L := IntegerLib.lib) IntegerLib.gap_first)) 1
    = Some at_position /\
    condition_overallcondition (snd at_position) = Some s /\
    mkFeatureRow (L := IntegerLib.lib) 1 500000%Z 3%Z 2%Z 1%Z [1%Z; 0%Z]
    = mkFeatureRow 1 a b f h
        (onehot (categories_ (mkEncoder ["Fair"%string; "Good"%string])) s).
Proof.
  split; [vm_compute; reflexivity|].
  apply (preprocess_data_rows (L := IntegerLib.lib)
           (read_csv IntegerLib.gap_first) _ _ eq_refl
           (mkFeatureRow (L := IntegerLib.lib) 1 500000%Z 3%Z 2%Z 1%Z
              [1%Z; 0%Z])).
  left. reflexivity.
Defined.

Lemma out_row_encoding {L : Lib} (frame : Frame) out enc o :
  preprocess_data frame = Ok (out, enc) -> In o out ->
  exists s, In s (categories_ enc) /\
            f_condition o = onehot (categories_ enc) s.
Proof.
  intros H Ho. destruct (preprocess_data_Ok_inv frame out enc H) as (He & Hout).
  pose proof (dropna_complete frame) as Hc.
  rewrite Hout in Ho. apply in_flat_map in Ho.
  destruct Ho as ([l r] & Hin & Ho). cbn [fst snd] in Ho.
  rewrite Forall_forall in Hc. pose proof (Hc _ Hin) as Hr. cbn [snd] in Hr.
  destruct (complete_inv r Hr) as (a & b & f & h & own & ->).
  destruct (nth_error _ l) as [ind|] eqn:Hn; [|contradiction].
  destruct Ho as [<-|[]]. cbn [f_condition].
  apply nth_error_In in Hn. apply in_map_iff in Hn.
  destruct Hn as (s & <- & Hs). exists s. split; [|reflexivity].
  rewrite He at 1. cbn [encoder_fit categories_]. now apply sorted_unique_In.
Qed.

(** Every row of the training matrix has exactly the columns of [X]: the
    three numeric ones and one per learned category.  This is the width
    [fit] records and [predict] must meet. *)
Theorem training_rows_have_X_columns {L : Lib} (frame : Frame)
  (out : list FeatureRow) (enc : OneHotEncoder) :
  preprocess_data frame = Ok (out, enc) ->
  Forall (fun x => length x = length (X_columns enc)) (map X_row out) /\
  length (X_columns enc) = 3 + length (categories_ enc).
Proof.
  intro H. split; [|apply length_X_columns].
  apply Forall_forall. intros x Hx. apply in_map_iff in Hx.
  destruct Hx as (o & <- & Ho).
  destruct (out_row_encoding frame out enc o H Ho) as (s & _ & E).
  unfold X_row. rewrite E, length_app, length_onehot, length_X_columns.
  reflexivity.
Qed.

Lemma training_rows_have_X_columns_witness :
  preprocess_data (read_csv (L := IntegerLib.lib) IntegerLib.four_lines)
  = Ok ([mkFeatureRow (L := IntegerLib.lib) 0 500000%Z 3%Z 2%Z 1%Z [0%Z; 1%Z];
         mkFeatureRow (L := IntegerLib.lib) 1 300000%Z 2%Z 1%Z 0%Z [1%Z; 0%Z];
         mkFeatureRow (L := IntegerLib.lib) 2 500000%Z 3%Z 2%Z 1%Z [0%Z; 1%Z]],
        mkEncoder ["Fair"%string; "Good"%string]) /\
  length (X_columns (mkEncoder ["Fair"%string; "Good"%string])) = 5.
Proof.
  split; [vm_compute; reflexivity|].
  exact (proj2 (training_rows_have_X_columns (L := IntegerLib.lib)
                  (read_csv IntegerLib.four_lines) _ _ eq_refl)).
Defined.

(** The indicator columns of every training row can be produced again at
    prediction time: they are what [transform] returns for one of the
    learned categories. *)
Theorem training_encoding_is_reproduced_by_transform {L : Lib} (frame : Frame)
  (out : list FeatureRow) (enc : OneHotEncoder) (o : FeatureRow) :
  preprocess_data frame = Ok (out, enc) -> In o out ->
  exists s, encoder_transform enc s = Ok (f_condition o).
Proof.
  intros H Ho. destruct (out_row_encoding frame out enc o H Ho) as (s & Hs & E).
  exists s. unfold encoder_transform.
  rewrite (proj2 (member_In _ _) Hs), E. reflexivity.
Qed.

Lemma training_encoding_is_reproduced_by_transform_witness :
  exists s,
    encoder_transform (L := IntegerLib.lib)
      (mkEncoder ["Fair"%string; "Good"%string]) s
    = Ok [1%Z; 0%Z].
Proof.
  apply (training_encoding_is_reproduced_by_transform (L := IntegerLib.lib)
           (read_csv IntegerLib.gap_first)
           [mkFeatureRow (L := IntegerLib.lib) 1 500000%Z 3%Z 2%Z 1%Z
              [1%Z; 0%Z]]
           (mkEncoder ["Fair"%string; "Good"%string])
           (mkFeatureRow (L := IntegerLib.lib) 1 500000%Z 3%Z 2%Z 1%Z
              [1%Z; 0%Z]) eq_refl).
  left. reflexivity.
Defined.

(** ** Which rows are lost *)

Lemma length_present_complete {L : Lib} (df : Frame) :
  Forall (fun p => complete (snd p) = true) df ->
  length (present (map (fun p => condition_overallcondition (snd p)) df))
  = length df.
Proof.
  intro H. rewrite <- (present_complete df EmptyString H). apply length_map.
Qed.

Lemma length_joined_rows {L : Lib} (df : Frame) (encoded : list (list R)) :
  Forall (fun p => complete (snd p) = true) df ->
  length (flat_map
            (fun p => dropna_joined_row
               (mkJoined (fst p) (Some (snd p)) (nth_error encoded (fst p))))
            df)
  = length (filter (fun p => fst p <? length encoded) df).
Proof.
  induction 1 as [|[l r] df Hr _ IH]; simpl; [reflexivity|].
  cbn [snd] in Hr. destruct (complete_inv r Hr) as (a & b & f & h & s & ->).
  rewrite length_app, IH. destruct (Nat.ltb_spec l (length encoded)) as [Hlt|Hge].
  - destruct (nth_error encoded l) eqn:E; [reflexivity|].
    apply nth_error_None in E. lia.
  - apply nth_error_None in Hge. rewrite Hge. reflexivity.
Qed.

(** The number of returned rows: the complete rows whose label is smaller
    than the number of complete rows. *)
Lemma length_preprocessed {L : Lib} (frame : Frame) out enc :
  preprocess_data frame = Ok (out, enc) ->
  length out
  = length (filter (fun p => fst p <? length (dropna frame)) (dropna frame)).
Proof.
  intro H. destruct (preprocess_data_Ok_inv frame out enc H) as (_ & ->).
  pose proof (dropna_complete frame) as Hc.
  rewrite (length_joined_rows _ _ Hc), length_map, (length_present_complete _ Hc).
  reflexivity.
Qed.

Lemma filter_all {A} (P : A -> bool) (l : list A) :
  length (filter P l) = length l <-> forallb P l = true.
Proof.
  induction l as [|a l IH]; simpl; [intuition|].
  pose proof (filter_length_le P l) as Hle.
  destruct (P a); simpl.
  - rewrite <- IH. split; intro H; lia.
  - split; [lia | discriminate].
Qed.

Section Labels.
Context {A : Type} (P : A -> bool).

Lemma kept_labels_cons (k : nat) (a : A) (rows : list A) :
  kept_labels P k (a :: rows)
  = if P a then k :: kept_labels P (S k) rows else kept_labels P (S k) rows.
Proof. unfold kept_labels. simpl. now destruct (P a). Qed.

Lemma kept_labels_ge (k : nat) (rows : list A) :
  Forall (fun l => k <= l) (kept_labels P k rows).
Proof.
  revert k. induction rows as [|a rows IH]; intro k.
  - constructor.
  - rewrite kept_labels_cons.
    assert (H : Forall (fun l => k <= l) (kept_labels P (S k) rows)).
    { eapply Forall_impl; [|apply IH]. simpl. intros; lia. }
    destruct (P a); [constructor; [lia | exact H] | exact H].
Qed.

Lemma length_kept_labels (k : nat) (rows : list A) :
  length (kept_labels P k rows) = length (filter P rows).
Proof.
  unfold kept_labels. rewrite length_map, <- (length_map snd).
  rewrite filter_combine_seq. reflexivity.
Qed.

(** The kept labels are the positions 0, 1, ... exactly when the rows
    that are kept come before every row that is not. *)
Lemma kept_labels_range_iff (k : nat) (rows : list A) :
  kept_labels P k rows = seq k (length (filter P rows)) <->
  forallb P (firstn (length (filter P rows)) rows) = true.
Proof.
  revert k. induction rows as [|a rows IH]; intro k.
  - simpl. intuition.
  - rewrite kept_labels_cons. simpl. destruct (P a) eqn:Pa; simpl.
    + rewrite Pa. simpl. rewrite <- (IH (S k)). split.
      * intro H. now inversion H.
      * intros ->. reflexivity.
    + pose proof (kept_labels_ge (S k) rows) as Hge.
      pose proof (length_kept_labels (S k) rows) as Hlen.
      destruct (filter P rows) as [|b kept] eqn:E.
      * simpl in *. destruct (kept_labels P (S k) rows); [|discriminate].
        intuition.
      * simpl. rewrite Pa. simpl. split; [|discriminate].
        intro H. rewrite H in Hge. inversion Hge; subst. lia.
Qed.

Lemma kept_labels_below_iff (k : nat) (rows : list A) :
  Forall (fun l => l < k + length (filter P rows)) (kept_labels P k rows) <->
  kept_labels P k rows = seq k (length (filter P rows)).
Proof.
  split.
  - revert k. induction rows as [|a rows IH]; intros k H.
    + reflexivity.
    + rewrite kept_labels_cons in *. simpl in *.
      destruct (P a); simpl in *.
      * inversion H as [|? ? _ Hrest]; subst. f_equal. apply IH.
        eapply Forall_impl; [|exact Hrest]. simpl. intros; lia.
      * assert (Hs : kept_labels P (S k) rows
                     = seq (S k) (length (filter P rows))).
        { apply IH. eapply Forall_impl; [|exact H]. simpl. intros; lia. }
        destruct (length (filter P rows)) as [|n] eqn:En.
        -- rewrite Hs. reflexivity.
        -- exfalso. rewrite Hs in H. rewrite Forall_forall in H.
           specialize (H (S k + n)). rewrite in_seq in H. lia.
  - intros ->. apply Forall_forall. intros l Hl. apply in_seq in Hl. lia.
Qed.
End Labels.

Lemma forallb_through_map {A B} (P : B -> bool) (f : A -> B) (l : list A) :
  forallb P (map f l) = forallb (fun a => P (f a)) l.
Proof.
  induction l as [|a l IH]; simpl; [reflexivity | now rewrite IH].
Qed.

Lemma index_dropna_read_csv {L : Lib} (csv : list CsvRow) :
  index (dropna (read_csv csv))
  = kept_labels complete 0 (map select_columns csv).
Proof.
  unfold index, dropna, read_csv, kept_labels. rewrite length_map. reflexivity.
Qed.

Lemma length_dropna_read_csv {L : Lib} (csv : list CsvRow) :
  length (dropna (read_csv csv)) = length (filter required_present csv).
Proof.
  rewrite <- (length_map snd), dropna_read_csv. apply length_map.
Qed.

Lemma complete_lines_first {L : Lib} (csv : list CsvRow) :
  index (dropna (read_csv csv)) = seq 0 (length (filter required_present csv))
  <->
  forallb required_present
          (firstn (length (filter required_present csv)) csv) = true.
Proof.
  rewrite index_dropna_read_csv.
  pose proof (kept_labels_range_iff complete 0 (map select_columns csv)) as H.
  rewrite filter_map, length_map, firstn_map, forallb_through_map in H.
  exact H.
Qed.

(** As [/reload] calls it, [preprocess_data] never returns more rows than
    there are complete lines, and it returns all of them exactly when the
    complete lines come before every incomplete line of the download: a
    single gap ahead of a complete line costs training rows. *)
Theorem rows_kept_iff_complete_lines_first {L : Lib} (csv : list CsvRow)
  (out : list FeatureRow) (enc : OneHotEncoder) :
  preprocess_data (dropna (read_csv csv)) = Ok (out, enc) ->
  let n := length (filter required_present csv) in
  length out <= n /\
  (length out = n <-> forallb required_present (firstn n csv) = true).
Proof.
  intro H. cbv zeta.
  pose proof (length_preprocessed _ _ _ H) as Hlen.
  rewrite dropna_idempotent in Hlen.
  pose proof (length_dropna_read_csv csv) as Hn.
  pose proof (complete_lines_first csv) as Hfirst.
  pose proof (kept_labels_below_iff complete 0 (map select_columns csv)) as Hk.
  rewrite filter_map, length_map, <- index_dropna_read_csv in Hk.
  change (fun a : CsvRow => complete (select_columns a))
    with required_present in Hk.
  remember (length (filter required_present csv)) as n eqn:En.
  remember (dropna (read_csv csv)) as df eqn:Edf.
  rewrite Hn in Hlen.
  pose proof (filter_all (fun p : nat * Row => fst p <? n) df) as Hf.
  rewrite Hn in Hf. rewrite Hlen. split.
  - rewrite <- Hn. apply filter_length_le.
  - rewrite Hf, <- Hfirst, <- Hk, forallb_forall, Forall_forall.
    unfold index. cbn [Nat.add]. split.
    + intros Hall l Hl. apply in_map_iff in Hl. destruct Hl as (p & <- & Hp).
      apply Nat.ltb_lt, Hall, Hp.
    + intros Hall p Hp. apply Nat.ltb_lt. apply (Hall (fst p)).
      apply in_map. exact Hp.
Qed.

Lemma rows_kept_iff_complete_lines_first_witness :
  preprocess_data (dropna (read_csv (L := IntegerLib.lib) IntegerLib.gap_first))
  = Ok ([mkFeatureRow (L := IntegerLib.lib) 1 500000%Z 3%Z 2%Z 1%Z [1%Z; 0%Z]],
        mkEncoder ["Fair"%string; "Good"%string]) /\
  1 <= 2 /\
  (1 = 2 <->
   forallb (required_present (L := IntegerLib.lib))
           (firstn 2 IntegerLib.gap_first) = true).
Proof.
  split; [vm_compute; reflexivity|].
  exact (rows_kept_iff_complete_lines_first (L := IntegerLib.lib)
           IntegerLib.gap_first _ _ eq_refl).
Defined.

Lemma combine_index {L : Lib} (df : Frame) :
  combine (index df) (map snd df) = df.
Proof.
  unfold index. induction df as [|[l r] df IH]; simpl;
    [reflexivity | now rewrite IH].
Qed.

Lemma joined_rows_aligned {L : Lib} (df : Frame) (encoded : list (list R))
  (cats : list string) :
  Forall (fun p => complete (snd p) = true) df ->
  (forall p, In p df ->
     forall s, condition_overallcondition (snd p) = Some s ->
     nth_error encoded (fst p) = Some (onehot cats s)) ->
  Forall2
    (fun p o =>
       exists a b f h s,
         snd p = mkRow (Val a) (Val b) (Val f) (Val h) (Some s) /\
         o = mkFeatureRow (fst p) a b f h (onehot cats s))
    df
    (flat_map
       (fun p => dropna_joined_row
          (mkJoined (fst p) (Some (snd p)) (nth_error encoded (fst p))))
       df).
Proof.
  induction 1 as [|[l r] df Hr _ IH]; intro Hown; simpl.
  - constructor.
  - cbn [snd] in Hr. destruct (complete_inv r Hr) as (a & b & f & h & s & ->).
    pose proof (Hown _ (or_introl eq_refl) s eq_refl) as Hl.
    cbn [fst] in Hl. rewrite Hl.
    cbn [dropna_joined_row j_left j_right assessedvalue interior_bedrooms
         interior_fullbaths interior_halfbaths j_label app].
    constructor.
    + exists a, b, f, h, s. split; reflexivity.
    + apply IH. intros p Hp. apply Hown. now right.
Qed.

(** When the complete lines of the download come before every incomplete
    one, [/reload] trains on each complete line with the indicator columns
    of that line's own condition, in the order of the download. *)
Theorem rows_aligned_when_complete_lines_first {L : Lib} (csv : list CsvRow)
  (out : list FeatureRow) (enc : OneHotEncoder) :
  preprocess_data (dropna (read_csv csv)) = Ok (out, enc) ->
  forallb required_present
          (firstn (length (filter required_present csv)) csv) = true ->
  Forall2
    (fun p o =>
       exists a b f h s,
         snd p = mkRow (Val a) (Val b) (Val f) (Val h) (Some s) /\
         o = mkFeatureRow (fst p) a b f h (onehot (categories_ enc) s))
    (dropna (read_csv csv)) out.
Proof.
  intros H Hfirst. apply complete_lines_first in Hfirst.
  rewrite <- length_dropna_read_csv in Hfirst.
  destruct (preprocess_data_Ok_inv _ _ _ H) as (_ & ->).
  rewrite dropna_idempotent.
  remember (dropna (read_csv csv)) as df eqn:Edf.
  assert (Hc : Forall (fun p => complete (snd p) = true) df)
    by (subst df; apply dropna_complete).
  apply joined_rows_aligned; [exact Hc|].
  intros p Hp s Hs.
  assert (Hn : nth_error df (fst p) = Some p).
  { rewrite <- (combine_index df) in Hp |- *. rewrite Hfirst in Hp |- *.
    rewrite <- (length_map snd df) in Hp |- *.
    destruct (nth_error_range _ 0 p Hp) as (_ & Hn).
    rewrite Nat.sub_0_r in Hn. exact Hn. }
  rewrite nth_error_map, (present_nth df (fst p) Hc), Hn, Hs. reflexivity.
Qed.

Lemma rows_aligned_when_complete_lines_first_witness :
  Forall2
    (fun p o =>
       exists a b f h s,
         snd p = mkRow (L := IntegerLib.lib)
                   (Val a) (Val b) (Val f) (Val h) (Some s) /\
         o = mkFeatureRow (fst p) a b f h
               (onehot (categories_ (mkEncoder ["Fair"%string; "Good"%string])) s))
    (dropna (read_csv (L := IntegerLib.lib) IntegerLib.four_lines))
    [mkFeatureRow (L := IntegerLib.lib) 0 500000%Z 3%Z 2%Z 1%Z [0%Z; 1%Z];
     mkFeatureRow (L := IntegerLib.lib) 1 300000%Z 2%Z 1%Z 0%Z [1%Z; 0%Z];
     mkFeatureRow (L := IntegerLib.lib) 2 500000%Z 3%Z 2%Z 1%Z [0%Z; 1%Z]].
Proof.
  exact (rows_aligned_when_complete_lines_first (L := IntegerLib.lib)
           IntegerLib.four_lines _ _ eq_refl eq_refl).
Defined.

(** ** What a reload stores *)

Lemma reload_200_steps {L : Lib} upstream st0 b st :
  reload_data upstream st0 = (mkResponse 200 b, st) ->
  exists csv rows df enc m,
    upstream = Ok csv /\
    add_all 1 (dropna (read_csv csv)) = Ok rows /\
    preprocess_data (dropna (read_csv csv)) = Ok (df, enc) /\
    fit (X_columns enc) (map X_row df) (map f_assessedvalue df) = Ok m /\
    b = JSummary (summary_of (dropna (read_csv csv))) /\
    st = mkState rows (Some m) (Some enc).
Proof.
  unfold reload_data, internal_server_error.
  destruct upstream as [csv|e]; [|discriminate].
  destruct (add_all 1 (dropna (read_csv csv))) as [rows|e] eqn:Ha;
    [|discriminate].
  destruct (preprocess_data (dropna (read_csv csv))) as [[df enc]|e] eqn:Hp;
    [|discriminate].
  destruct (fit (X_columns enc) (map X_row df) (map f_assessedvalue df))
    as [m|e] eqn:Hf; [|discriminate].
  intro H. inversion H; subst. exists csv, rows, df, enc, m.
  repeat split; assumption || reflexivity.
Qed.

Lemma reload_steps_200 {L : Lib} csv st0 rows df enc m :
  add_all 1 (dropna (read_csv csv)) = Ok rows ->
  preprocess_data (dropna (read_csv csv)) = Ok (df, enc) ->
  fit (X_columns enc) (map X_row df) (map f_assessedvalue df) = Ok m ->
  reload_data (Ok csv) st0
  = (mkResponse 200 (JSummary (summary_of (dropna (read_csv csv)))),
     mkState rows (Some m) (Some enc)).
Proof.
  intros Ha Hp Hf. unfold reload_data. rewrite Ha, Hp, Hf. reflexivity.
Qed.

(** A reload that answers 200 overwrites the whole shared state: its
    answer and the table, model and encoder it leaves depend on the
    fetched data only, not on what the state held before.  In particular
    a second reload of the same data gives the same summary and state. *)
Theorem reload_overwrites_prior_state {L : Lib}
  (upstream : result (list CsvRow)) (st1 st2 st : State) (b : Body) :
  reload_data upstream st1 = (mkResponse 200 b, st) ->
  reload_data upstream st2 = (mkResponse 200 b, st) /\
  reload_data upstream st = (mkResponse 200 b, st).
Proof.
  intro H. apply reload_200_steps in H.
  destruct H as (csv & rows & df & enc & m & -> & Ha & Hp & Hf & -> & ->).
  split; apply (reload_steps_200 csv _ rows df enc m); assumption.
Qed.

Lemma reload_overwrites_prior_state_witness :
  reload_data (L := IntegerLib.lib) (Ok IntegerLib.four_lines)
              IntegerLib.after_reload
  = reload_data (L := IntegerLib.lib) (Ok IntegerLib.four_lines) (initial []).
Proof.
  destruct (reload_overwrites_prior_state (L := IntegerLib.lib)
              (Ok IntegerLib.four_lines) (initial []) IntegerLib.after_reload
              _ _ eq_refl) as (H & _).
  rewrite H. reflexivity.
Defined.

Lemma add_all_spec {L : Lib} (df : Frame) (i : nat) (rows : list Assessment) :
  add_all i df = Ok rows ->
  map id rows = seq i (length df) /\
  Forall2
    (fun r a =>
       assessedvalue r = Val (db_assessedvalue a) /\
       int (interior_bedrooms r) = Ok (db_interior_bedrooms a) /\
       interior_fullbaths r = Val (db_interior_fullbaths a) /\
       int (interior_halfbaths r) = Ok (db_interior_halfbaths a) /\
       condition_overallcondition r = Some (db_condition_overallcondition a))
    (map snd df) rows.
Proof.
  revert i rows. induction df as [|[l r] df IH]; intros i rows H; simpl in H.
  - inversion H. split; constructor.
  - unfold new_assessment, bind in H.
    destruct (int (interior_bedrooms r)) as [b|] eqn:Hb; [|discriminate].
    destruct (int (interior_halfbaths r)) as [h|] eqn:Hh; [|discriminate].
    destruct (assessedvalue r) as [|a] eqn:Ha; [discriminate|].
    destruct (interior_fullbaths r) as [|f] eqn:Hf; [discriminate|].
    destruct (condition_overallcondition r) as [c|] eqn:Hc; [|discriminate].
    destruct (add_all (S i) df) as [others|] eqn:Ho; [|discriminate].
    inversion H; subst. destruct (IH _ _ Ho) as (Hid & Hall).
    split; simpl; [now rewrite Hid|].
    constructor; [|exact Hall].
    cbn [snd db_assessedvalue db_interior_bedrooms db_interior_fullbaths
         db_interior_halfbaths db_condition_overallcondition].
    repeat split; assumption.
Qed.

Lemma Forall2_map_left {A B C} (R0 : B -> C -> Prop) (f : A -> B)
  (l : list A) (l' : list C) :
  Forall2 R0 (map f l) l' -> Forall2 (fun a c => R0 (f a) c) l l'.
Proof.
  revert l'. induction l as [|a l IH]; intros l' H; inversion H; subst;
    constructor; auto.
Qed.

(** After a reload that answers 200 the table holds exactly the complete
    lines of the download, in their order and numbered from 1: as many
    rows as [total_assessments] reports, each with the line's assessed
    value, full-bath count and condition and with its bedroom and
    half-bath counts converted by [int]. *)
Theorem reload_persists_complete_lines {L : Lib}
  (upstream : result (list CsvRow)) (st0 st : State) (summary : Summary) :
  reload_data upstream st0 = (mkResponse 200 (JSummary summary), st) ->
  exists csv,
    upstream = Ok csv /\
    length (table st) = total_assessments summary /\
    map id (table st) = seq 1 (total_assessments summary) /\
    Forall2
      (fun c a =>
         csv_assessedvalue c = Val (db_assessedvalue a) /\
         int (csv_interior_bedrooms c) = Ok (db_interior_bedrooms a) /\
         csv_interior_fullbaths c = Val (db_interior_fullbaths a) /\
         int (csv_interior_halfbaths c) = Ok (db_interior_halfbaths a) /\
         csv_condition_overallcondition c
         = Some (db_condition_overallcondition a))
      (filter required_present csv) (table st).
Proof.
  intro H. apply reload_200_steps in H.
  destruct H as (csv & rows & df & enc & m & -> & Ha & _ & _ & Hs & ->).
  inversion Hs; subst summary. clear Hs.
  destruct (add_all_spec _ _ _ Ha) as (Hid & Hall).
  exists csv. cbn [table summary_of total_assessments].
  split; [reflexivity|]. split; [|split].
  - rewrite <- (length_map id rows), Hid. apply length_seq.
  - exact Hid.
  - rewrite dropna_read_csv in Hall. apply Forall2_map_left in Hall.
    exact Hall.
Qed.

Lemma reload_persists_complete_lines_witness :
  exists csv,
    Ok IntegerLib.four_lines = Ok csv /\
    length (table (snd (reload_data (L := IntegerLib.lib)
                          (Ok IntegerLib.four_lines) (initial [])))) = 3.
Proof.
  destruct (reload_persists_complete_lines (L := IntegerLib.lib)
              (Ok IntegerLib.four_lines) (initial [])
              (snd (reload_data (L := IntegerLib.lib)
                      (Ok IntegerLib.four_lines) (initial [])))
              (summary_of (L := IntegerLib.lib)
                 (dropna (read_csv IntegerLib.four_lines))) eq_refl)
    as (csv & E & Hlen & _).
  exists csv. split; [exact E | exact Hlen].
Defined.

(** A reload of data without a single complete line answers 500 after it
    has committed the emptied table: the rows stored before are gone,
    while the model and the encoder stay as they were. *)
Theorem reload_without_complete_line {L : Lib} (csv : list CsvRow)
  (st : State) :
  filter required_present csv = [] ->
  status_code (fst (reload_data (Ok csv) st)) = 500 /\
  snd (reload_data (Ok csv) st) = mkState [] (model st) (encoder st).
Proof.
  intro H.
  assert (E : dropna (read_csv csv) = []).
  { apply length_zero_iff_nil. rewrite length_dropna_read_csv, H. reflexivity. }
  unfold reload_data. rewrite E. cbn [add_all].
  rewrite (preprocess_data_empty [] eq_refl). split; reflexivity.
Qed.

Lemma reload_without_complete_line_witness :
  filter (required_present (L := IntegerLib.lib)) [IntegerLib.gap] = [] /\
  snd (reload_data (L := IntegerLib.lib) (Ok [IntegerLib.gap])
                   IntegerLib.after_reload)
  = mkState [] (model IntegerLib.after_reload)
            (encoder IntegerLib.after_reload).
Proof.
  split; [reflexivity|].
  exact (proj2 (reload_without_complete_line (L := IntegerLib.lib)
                  [IntegerLib.gap] IntegerLib.after_reload eq_refl)).
Defined.

(** ** The answers of [predict] *)

Lemma response_eta {L : Lib} (r : Response) :
  r = mkResponse (status_code r) (body r).
Proof. now destruct r. Qed.

Lemma predict_answer_forms {L : Lib} (data : dict) (st : State) :
  (exists v, fst (predict data st) = mkResponse 200 (JPredicted v)) \/
  (exists msg,
     fst (predict data st) = mkResponse 400 (JError msg) /\
     In msg [not_loaded_msg; missing_msg; invalid_condition_msg;
             invalid_numeric_msg]) \/
  (exists e, fst (predict data st) = mkResponse 500 (JError (str e))).
Proof.
  destruct (model st) as [m|] eqn:Hm;
    [|rewrite (not_loaded_first data st (or_introl Hm));
      right; left; eexists; split; [reflexivity | simpl; tauto]].
  destruct (encoder st) as [enc|] eqn:He;
    [|rewrite (not_loaded_first data st (or_intror He));
      right; left; eexists; split; [reflexivity | simpl; tauto]].
  rewrite (predict_loaded data st m enc Hm He). cbv zeta.
  destruct (is_None _);
    [right; left; eexists; split; [reflexivity | simpl; tauto]|].
  destruct (negb _);
    [right; left; eexists; split; [reflexivity | simpl; tauto]|].
  destruct (_ || _);
    [right; left; eexists; split; [reflexivity | simpl; tauto]|].
  destruct (bind _ _) as [v|e].
  - left. eexists. reflexivity.
  - right. right. eexists. reflexivity.
Qed.

(** To a request with a JSON object as its body [predict] answers in one
    of three ways only: 200 with a prediction, 400 with one of its four
    validation messages, or 500 with the text of the exception caught by
    the handler.  No exception leaves the handler. *)
Theorem predict_answers {L : Lib} (data : dict) (st : State) :
  (exists v, fst (predict data st) = mkResponse 200 (JPredicted v)) \/
  (exists msg,
     fst (predict data st) = mkResponse 400 (JError msg) /\
     In msg [not_loaded_msg; missing_msg; invalid_condition_msg;
             invalid_numeric_msg]) \/
  (exists e, fst (predict data st) = mkResponse 500 (JError (str e))).
Proof. exact (predict_answer_forms data st). Qed.

Lemma all_finite_with_onehot {L : Lib} (x : list (float64 R))
  (cats : list string) (s : string) :
  all_finite (x ++ map Val (onehot cats s))
  = match all_finite x with
    | Some xs => Some (xs ++ onehot cats s)
    | None => None
    end.
Proof.
  induction x as [|c x IH]; simpl.
  - apply all_finite_onehot.
  - rewrite IH. destruct c as [|r]; [reflexivity|].
    destruct (all_finite x); [|reflexivity].
    destruct (isinf r); reflexivity.
Qed.

Lemma all_finite_three {L : Lib} (b f h : float64 R) :
  (exists xs, all_finite [b; f; h] = Some xs /\ length xs = 3) <->
  isfinite b = true /\ isfinite f = true /\ isfinite h = true.
Proof.
  destruct b as [|b], f as [|f], h as [|h]; simpl;
    try (split; [intros (xs & H & _); discriminate | intros (?&?&?); discriminate]).
  destruct (isinf b), (isinf f), (isinf h); simpl;
    try (split; [intros (xs & H & _); discriminate | intros (?&?&?); discriminate]).
  split; [intros _; repeat split | intros _; eexists; split; reflexivity].
Qed.

(** With a fitted model of the encoder's width, a request that passes the
    three validation checks is answered by the encoder and the model. *)
Lemma predict_validated {L : Lib} data st enc p s :
  model st = Some (Fitted (length (X_columns enc)) p) ->
  encoder st = Some enc ->
  get data "condition_overallcondition" = PyStr s ->
  In s valid_condition_overallcondition ->
  isna (to_numeric (get data "interior_bedrooms")) = false ->
  isna (to_numeric (get data "interior_fullbaths")) = false ->
  isna (to_numeric (get data "interior_halfbaths")) = false ->
  status_code (fst (predict data st)) =
  if member s (categories_ enc) then
    match all_finite [to_numeric (get data "interior_bedrooms");
                      to_numeric (get data "interior_fullbaths");
                      to_numeric (get data "interior_halfbaths")] with
    | Some _ => 200
    | None => 500
    end
  else 500.
Proof.
  intros Hm He Hc Hs Hb Hf Hh.
  rewrite (predict_loaded data st _ _ Hm He). cbv zeta.
  rewrite Hc, Hb, Hf, Hh. cbn [is_None py_in orb].
  rewrite (proj2 (member_In _ _) Hs). cbn [negb].
  unfold transform, encoder_transform.
  destruct (member s (categories_ enc)); [|reflexivity].
  cbn [bind model_predict].
  rewrite (all_finite_with_onehot [_; _; _]).
  destruct (all_finite [_; _; _]) as [xs|] eqn:E; [|reflexivity].
  assert (Hlen : length xs = 3).
  { destruct (to_numeric (get data "interior_bedrooms")) as [|b];
      [discriminate|].
    destruct (to_numeric (get data "interior_fullbaths")) as [|f];
      [discriminate|].
    destruct (to_numeric (get data "interior_halfbaths")) as [|h];
      [discriminate|].
    simpl in E. destruct (isinf h); [discriminate|].
    destruct (isinf f); [discriminate|]. destruct (isinf b); [discriminate|].
    inversion E. reflexivity. }
  rewrite length_app, length_onehot, Hlen, length_X_columns, Nat.eqb_refl.
  reflexivity.
Qed.

Lemma all_finite_three_status {L : Lib} (b f h : float64 R) :
  match all_finite [b; f; h] with Some _ => 200 | None => 500 end
  = if isfinite b && isfinite f && isfinite h then 200 else 500.
Proof.
  destruct b as [|b], f as [|f], h as [|h]; simpl; try reflexivity;
    try (destruct (isinf b); reflexivity);
    try (destruct (isinf b), (isinf f); reflexivity).
  destruct (isinf b), (isinf f), (isinf h); reflexivity.
Qed.

(** The status [predict] answers with once a reload has succeeded. *)
Lemma predict_status_loaded {L : Lib} data st enc p :
  model st = Some (Fitted (length (X_columns enc)) p) ->
  encoder st = Some enc ->
  let c := get data "condition_overallcondition" in
  let b := to_numeric (get data "interior_bedrooms") in
  let f := to_numeric (get data "interior_fullbaths") in
  let h := to_numeric (get data "interior_halfbaths") in
  status_code (fst (predict data st)) =
  if is_None c then 400
  else if negb (py_in c valid_condition_overallcondition) then 400
  else if isna b || isna f || isna h then 400
  else match c with
       | PyStr s =>
           if member s (categories_ enc)
           then if isfinite b && isfinite f && isfinite h then 200 else 500
           else 500
       | _ => 500
       end.
Proof.
  intros Hm He c b f h.
  destruct (is_None c) eqn:Hn;
    [rewrite (predict_loaded data st _ _ Hm He); cbv zeta; fold c;
     rewrite Hn; reflexivity|].
  destruct (py_in c valid_condition_overallcondition) eqn:Hv; cbn [negb];
    [|rewrite (predict_loaded data st _ _ Hm He); cbv zeta; fold c;
      rewrite Hn, Hv; reflexivity].
  destruct (isna b || isna f || isna h) eqn:Hna;
    [rewrite (predict_loaded data st _ _ Hm He); cbv zeta; fold c b f h;
     rewrite Hn, Hv, Hna; reflexivity|].
  apply py_in_spec in Hv. destruct Hv as (s & Hc & Hs).
  apply orb_false_iff in Hna. destruct Hna as (Hna & Hh).
  apply orb_false_iff in Hna. destruct Hna as (Hb & Hf).
  rewrite (predict_validated data st enc p s Hm He Hc Hs Hb Hf Hh).
  fold b f h. rewrite Hc, all_finite_three_status. reflexivity.
Qed.

Lemma present_In (s : string) (col : list (option string)) :
  In s (present col) <-> In (Some s) col.
Proof.
  induction col as [|[x|] col IH]; simpl.
  - reflexivity.
  - rewrite IH. split; intros [E|H]; auto; left; congruence.
  - rewrite IH. split; [auto | intros [E|H]; [discriminate | exact H]].
Qed.

(** The categories a reload learns are the conditions of the complete
    lines of its download. *)
Lemma categories_of_download {L : Lib} (csv : list CsvRow) df enc (s : string) :
  preprocess_data (dropna (read_csv csv)) = Ok (df, enc) ->
  In s (categories_ enc) <->
  exists c, In c csv /\ required_present c = true /\
            csv_condition_overallcondition c = Some s.
Proof.
  intro H. destruct (preprocess_data_Ok_inv _ _ _ H) as (-> & _).
  cbn [encoder_fit categories_]. rewrite sorted_unique_In, present_In.
  rewrite dropna_idempotent, <- (map_map snd condition_overallcondition).
  rewrite dropna_read_csv, in_map_iff. split.
  - intros (r & Hr & Hin). apply in_map_iff in Hin.
    destruct Hin as (c & <- & Hc). apply filter_In in Hc.
    exists c. repeat split; [apply Hc | apply Hc | exact Hr].
  - intros (c & Hin & Hp & Hs). exists (select_columns c).
    split; [exact Hs|]. apply in_map, filter_In. split; assumption.
Qed.

(** After a reload that answered 200, [predict] answers 200 exactly for
    the requests whose condition is one of the seven literals and is the
    condition of a complete line of the reloaded download, and whose three
    numeric fields coerce to finite numbers. *)
Theorem predict_200_iff {L : Lib} (csv : list CsvRow) (st0 st : State)
  (b : Body) (data : dict) :
  reload_data (Ok csv) st0 = (mkResponse 200 b, st) ->
  status_code (fst (predict data st)) = 200 <->
  exists s c,
    get data "condition_overallcondition" = PyStr s /\
    In s valid_condition_overallcondition /\
    In c csv /\ required_present c = true /\
    csv_condition_overallcondition c = Some s /\
    isfinite (to_numeric (get data "interior_bedrooms")) = true /\
    isfinite (to_numeric (get data "interior_fullbaths")) = true /\
    isfinite (to_numeric (get data "interior_halfbaths")) = true.
Proof.
  intro H. apply reload_200_inv in H.
  destruct H as (csv' & rows & df & enc & p & E & _ & Hp & _ & _ & ->).
  inversion E; subst csv'. clear E.
  rewrite (predict_status_loaded data
             (mkState rows (Some (Fitted (length (X_columns enc)) p)) (Some enc))
             enc p eq_refl eq_refl).
  cbv zeta.
  pose proof (fun s => categories_of_download csv df enc s Hp) as Hcat.
  split.
  - destruct (is_None _); [discriminate|].
    destruct (py_in _ _) eqn:Hv; cbn [negb]; [|discriminate].
    destruct (_ || _); [discriminate|].
    apply py_in_spec in Hv. destruct Hv as (s & Hc & Hs). rewrite Hc.
    destruct (member s (categories_ enc)) eqn:Hm; [|discriminate].
    destruct (isfinite _ && isfinite _ && isfinite _) eqn:Hfin; [|discriminate].
    intros _. apply member_In, Hcat in Hm. destruct Hm as (c & Hin & Hr & Hcs).
    apply andb_true_iff in Hfin. destruct Hfin as (Hfin & Hh).
    apply andb_true_iff in Hfin. destruct Hfin as (Hb & Hf).
    exists s, c. repeat split; assumption.
  - intros (s & c & Hc & Hs & Hin & Hr & Hcs & Hb & Hf & Hh).
    rewrite Hc. cbn [is_None py_in].
    rewrite (proj2 (member_In _ _) Hs). cbn [negb].
    assert (Hna : forall x : float64 R, isfinite x = true -> isna x = false)
      by (intros [|x]; [discriminate | reflexivity]).
    rewrite (Hna _ Hb), (Hna _ Hf), (Hna _ Hh), Hb, Hf, Hh. cbn [orb andb].
    assert (Hm : member s (categories_ enc) = true).
    { apply member_In, Hcat. exists c. repeat split; assumption. }
    rewrite Hm. reflexivity.
Qed.

Lemma predict_200_iff_witness :
  status_code (fst (predict (L := IntegerLib.lib) IntegerLib.valid_input
                            IntegerLib.after_reload)) = 200 <->
  exists s c,
    get IntegerLib.valid_input "condition_overallcondition" = PyStr s /\
    In s valid_condition_overallcondition /\
    In c [IntegerLib.good_house] /\ required_present c = true /\
    csv_condition_overallcondition c = Some s /\
    isfinite (to_numeric (get IntegerLib.valid_input "interior_bedrooms"))
    = true /\
    isfinite (to_numeric (get IntegerLib.valid_input "interior_fullbaths"))
    = true /\
    isfinite (to_numeric (get IntegerLib.valid_input "interior_halfbaths"))
    = true.
Proof.
  exact (predict_200_iff (L := IntegerLib.lib) [IntegerLib.good_house]
           (initial []) IntegerLib.after_reload _ IntegerLib.valid_input
           eq_refl).
Defined.

(** A number that is not NaN but infinite passes the validation of
    [predict] and is refused only by the model: after a successful reload
    such a request, with a condition among the seven literals, is answered
    500 and not 400. *)
Theorem predict_infinite_number {L : Lib} (data : dict) (st : State)
  (s : string) :
  reloaded st ->
  get data "condition_overallcondition" = PyStr s ->
  In s valid_condition_overallcondition ->
  isna (to_numeric (get data "interior_bedrooms")) = false ->
  isna (to_numeric (get data "interior_fullbaths")) = false ->
  isna (to_numeric (get data "interior_halfbaths")) = false ->
  isfinite (to_numeric (get data "interior_bedrooms")) = false \/
  isfinite (to_numeric (get data "interior_fullbaths")) = false \/
  isfinite (to_numeric (get data "interior_halfbaths")) = false ->
  status_code (fst (predict data st)) = 500.
Proof.
  intros Hr Hc Hs Hb Hf Hh Hinf.
  destruct (reloaded_loaded st Hr) as (p & enc & Hm & He).
  rewrite (predict_status_loaded data st enc p Hm He). cbv zeta.
  rewrite Hc, Hb, Hf, Hh. cbn [is_None py_in orb].
  rewrite (proj2 (member_In _ _) Hs). cbn [negb].
  destruct (member s (categories_ enc)); [|reflexivity].
  assert (E : isfinite (to_numeric (get data "interior_bedrooms"))
              && isfinite (to_numeric (get data "interior_fullbaths"))
              && isfinite (to_numeric (get data "interior_halfbaths")) = false).
  { destruct Hinf as [H|[H|H]]; rewrite H;
      rewrite ?andb_false_r; reflexivity. }
  rewrite E. reflexivity.
Qed.

Lemma predict_infinite_number_witness :
  reloaded (L := InfinityLib.lib) InfinityLib.after_reload /\
  status_code (fst (predict (L := InfinityLib.lib) InfinityLib.infinite_input
                            InfinityLib.after_reload)) = 500.
Proof.
  assert (Hr : reloaded (L := InfinityLib.lib) InfinityLib.after_reload).
  { exists (Ok [InfinityLib.good_house]), (initial (L := InfinityLib.lib) []).
    eexists. vm_compute. reflexivity. }
  split; [exact Hr|].
  apply (predict_infinite_number (L := InfinityLib.lib)
           InfinityLib.infinite_input InfinityLib.after_reload "Good" Hr);
    try reflexivity.
  - vm_compute. tauto.
  - left. reflexivity.
Defined.

(** While the estimator is unfitted, as a reload that raised inside [fit]
    leaves it, no request gets a prediction: every [predict] is answered
    400 or 500. *)
Theorem predict_with_unfitted_model {L : Lib} (data : dict) (st : State) :
  model st = Some Unfitted ->
  status_code (fst (predict data st)) = 400 \/
  status_code (fst (predict data st)) = 500.
Proof.
  intro Hm.
  destruct (predict_answer_forms data st) as [(v & E)|[(msg & E & _)|(e & E)]].
  - destruct (predict_200_fitted data st _ E) as (m & enc & Hm' & _ & Hne).
    rewrite Hm in Hm'. inversion Hm'. subst m. contradiction.
  - left. rewrite E. reflexivity.
  - right. rewrite E. reflexivity.
Qed.

Lemma predict_with_unfitted_model_witness :
  let st := snd (reload_data (L := IntegerLib.lib)
                   (Ok [IntegerLib.gap; IntegerLib.good_house]) (initial [])) in
  model st = Some Unfitted /\
  (status_code (fst (predict (L := IntegerLib.lib) IntegerLib.valid_input st))
   = 400 \/
   status_code (fst (predict (L := IntegerLib.lib) IntegerLib.valid_input st))
   = 500).
Proof.
  cbv zeta. split; [reflexivity|].
  apply (predict_with_unfitted_model (L := IntegerLib.lib)). reflexivity.
Defined.

(** ** Substrings *)

Lemma prefix_iff (s msg : string) :
  String.prefix s msg = true <-> exists rest, msg = (s ++ rest)%string.
Proof.
  revert msg. induction s as [|a s IH]; intro msg.
  - split; [intros _; exists msg; reflexivity | intros _; now destruct msg].
  - destruct msg as [|b msg]; simpl.
    + split; [discriminate | intros (rest & H); discriminate].
    + destruct (ascii_dec a b) as [->|Hne].
      * rewrite IH. split; intros (rest & H); exists rest.
        -- now rewrite H.
        -- now inversion H.
      * split; [discriminate|]. intros (rest & H). inversion H. congruence.
Qed.

(** [contains] decides what the tests check with Python's [in]: the first
    string occurs somewhere inside the second. *)
Theorem contains_iff_substring (s msg : string) :
  contains s msg = true <->
  exists before rest, msg = (before ++ s ++ rest)%string.
Proof.
  induction msg as [|c msg IH].
  - cbn [contains]. rewrite orb_false_r, prefix_iff. split.
    + intros (rest & H). exists EmptyString, rest. exact H.
    + intros ([|c before] & rest & H); [exists rest; exact H | discriminate].
  - cbn [contains]. rewrite orb_true_iff, prefix_iff, IH. split.
    + intros [(rest & H)|(before & rest & H)].
      * exists EmptyString, rest. exact H.
      * exists (String c before), rest. simpl. now rewrite H.
    + intros ([|c' before] & rest & H).
      * left. exists rest. exact H.
      * right. inversion H. exists before, rest. reflexivity.
Qed.

(** ** Prediction and the stored data *)

Lemma predict_reads_globals_only {L : Lib} (data : dict) (st1 st2 : State) :
  model st1 = model st2 -> encoder st1 = encoder st2 ->
  fst (predict data st1) = fst (predict data st2).
Proof.
  intros Hm He. unfold predict. rewrite Hm, He.
  destruct (model st2), (encoder st2); try reflexivity.
  repeat match goal with
         | |- context [if ?c then _ else _] => destruct c
         | |- context [match ?r with Ok _ => _ | Raise _ => _ end] => destruct r
         end; reflexivity.
Qed.

(** Predictions never read the table.  So a reload of data without a
    complete line, which empties the table and then raises, leaves every
    later [predict] answering as it did before that reload: the service
    keeps predicting from a model whose data is no longer stored. *)
Theorem predict_unchanged_by_reload_without_complete_line {L : Lib}
  (csv : list CsvRow) (st : State) (data : dict) :
  filter required_present csv = [] ->
  table (snd (reload_data (Ok csv) st)) = [] /\
  fst (predict data (snd (reload_data (Ok csv) st))) = fst (predict data st).
Proof.
  intro H.
  assert (E : dropna (read_csv csv) = []).
  { apply length_zero_iff_nil. rewrite length_dropna_read_csv, H. reflexivity. }
  assert (Hs : snd (reload_data (Ok csv) st)
               = mkState [] (model st) (encoder st)).
  { unfold reload_data. rewrite E. cbn [add_all].
    rewrite (preprocess_data_empty [] eq_refl). reflexivity. }
  rewrite Hs. split; [reflexivity|].
  apply predict_reads_globals_only; reflexivity.
Qed.

Lemma predict_unchanged_by_reload_without_complete_line_witness :
  filter (required_present (L := IntegerLib.lib)) [IntegerLib.gap] = [] /\
  fst (predict (L := IntegerLib.lib) IntegerLib.valid_input
         (snd (reload_data (Ok [IntegerLib.gap]) IntegerLib.after_reload)))
  = mkResponse 200 (JPredicted (L := IntegerLib.lib) (Val 500000%Z)).
Proof.
  split; [reflexivity|].
  rewrite (proj2 (predict_unchanged_by_reload_without_complete_line
                    (L := IntegerLib.lib) [IntegerLib.gap]
                    IntegerLib.after_reload IntegerLib.valid_input eq_refl)).
  reflexivity.
Defined.

Lemma predict_value {L : Lib} data st enc p s (b f h : R) :
  model st = Some (Fitted (length (X_columns enc)) p) ->
  encoder st = Some enc ->
  get data "condition_overallcondition" = PyStr s ->
  In s valid_condition_overallcondition ->
  In s (categories_ enc) ->
  to_numeric (get data "interior_bedrooms") = Val b -> isinf b = false ->
  to_numeric (get data "interior_fullbaths") = Val f -> isinf f = false ->
  to_numeric (get data "interior_halfbaths") = Val h -> isinf h = false ->
  fst (predict data st)
  = mkResponse 200
      (JPredicted (decision p ([b; f; h] ++ onehot (categories_ enc) s))).
Proof.
  intros Hm He Hc Hs Hin Hb Hbf Hf Hff Hh Hhf.
  rewrite (predict_loaded data st _ _ Hm He). cbv zeta.
  rewrite Hc, Hb, Hf, Hh. cbn [is_None py_in isna orb].
  rewrite (proj2 (member_In _ _) Hs). cbn [negb].
  unfold transform, encoder_transform.
  rewrite (proj2 (member_In _ _) Hin). cbn [bind model_predict].
  rewrite (all_finite_with_onehot [Val b; Val f; Val h]).
  cbn [all_finite]. rewrite Hbf, Hff, Hhf.
  rewrite length_app, length_onehot, length_X_columns. cbn [length Nat.add].
  rewrite Nat.eqb_refl. reflexivity.
Qed.

Lemma fit_Ok_inv {L : Lib} cols X y m :
  fit cols X y = Ok m ->
  X <> [] /\ forallb no_inf X = true /\
  exists p, lstsq X y = Some p /\ m = Fitted (length cols) p.
Proof.
  unfold fit. destruct X as [|x X]; [discriminate|].
  destruct (forallb no_inf (x :: X)) eqn:Hx; [|discriminate].
  destruct (no_inf y); [|discriminate]. cbn [andb].
  destruct (lstsq (x :: X) y) as [p|]; [|discriminate].
  intro H. inversion H. split; [discriminate|]. split; [reflexivity|].
  exists p. split; reflexivity.
Qed.

(** Training and prediction build the same feature vector.  After a
    reload that answered 200, a request that repeats the three numeric
    cells of a row the model was trained on, with an accepted condition
    whose encoding is that row's, is answered 200 with the model's decision
    function applied to exactly that training row. *)
Theorem predict_on_training_row {L : Lib} (csv : list CsvRow) (st0 st : State)
  (b : Body) (df : list FeatureRow) (enc : OneHotEncoder) (o : FeatureRow)
  (s : string) (data : dict) :
  reload_data (Ok csv) st0 = (mkResponse 200 b, st) ->
  preprocess_data (dropna (read_csv csv)) = Ok (df, enc) ->
  In o df ->
  In s (categories_ enc) -> f_condition o = onehot (categories_ enc) s ->
  In s valid_condition_overallcondition ->
  get data "condition_overallcondition" = PyStr s ->
  to_numeric (get data "interior_bedrooms") = Val (f_interior_bedrooms o) ->
  to_numeric (get data "interior_fullbaths") = Val (f_interior_fullbaths o) ->
  to_numeric (get data "interior_halfbaths") = Val (f_interior_halfbaths o) ->
  exists p,
    model st = Some (Fitted (length (X_columns enc)) p) /\
    lstsq (map X_row df) (map f_assessedvalue df) = Some p /\
    fst (predict data st) = mkResponse 200 (JPredicted (decision p (X_row o))).
Proof.
  intros H Hp Ho Hs Henc Hv Hc Hb Hf Hh.
  apply reload_200_steps in H.
  destruct H as (csv' & rows & df' & enc' & m & E & _ & Hp' & Hfit & _ & ->).
  inversion E; subst csv'. rewrite Hp in Hp'. inversion Hp'; subst df' enc'.
  destruct (fit_Ok_inv _ _ _ _ Hfit) as (_ & Hfin & p & Hl & ->).
  exists p. split; [reflexivity|]. split; [exact Hl|].
  rewrite forallb_forall in Hfin.
  pose proof (Hfin (X_row o) (in_map X_row _ _ Ho)) as Hrow.
  unfold X_row, no_inf in Hrow. cbn [app forallb] in Hrow.
  apply andb_true_iff in Hrow. destruct Hrow as (Hbi & Hrow).
  apply andb_true_iff in Hrow. destruct Hrow as (Hfi & Hrow).
  apply andb_true_iff in Hrow. destruct Hrow as (Hhi & _).
  apply negb_true_iff in Hbi, Hfi, Hhi.
  rewrite (predict_value data
             (mkState rows (Some (Fitted (length (X_columns enc)) p)) (Some enc))
             enc p s _ _ _ eq_refl eq_refl Hc Hv Hs Hb Hbi Hf Hfi Hh Hhi).
  unfold X_row. rewrite Henc. reflexivity.
Qed.

Lemma predict_on_training_row_witness :
  exists p,
    model IntegerLib.after_reload
    = Some (Fitted (length (X_columns (mkEncoder ["Good"%string]))) p) /\
    @lstsq IntegerLib.lib
      (map X_row [mkFeatureRow (L := IntegerLib.lib) 0 500000%Z 3%Z 2%Z 1%Z
                    [1%Z]])
      (map f_assessedvalue
         [mkFeatureRow (L := IntegerLib.lib) 0 500000%Z 3%Z 2%Z 1%Z [1%Z]])
    = Some p /\
    fst (predict (L := IntegerLib.lib) (IntegerLib.request 3 2 1 "Good")
                 IntegerLib.after_reload)
    = mkResponse 200
        (JPredicted
           (decision p
              (X_row (mkFeatureRow (L := IntegerLib.lib) 0 500000%Z 3%Z 2%Z
                        1%Z [1%Z])))).
Proof.
  apply (predict_on_training_row (L := IntegerLib.lib)
           [IntegerLib.good_house] (initial []) IntegerLib.after_reload _
           [mkFeatureRow (L := IntegerLib.lib) 0 500000%Z 3%Z 2%Z 1%Z [1%Z]]
           (mkEncoder ["Good"%string])
           (mkFeatureRow (L := IntegerLib.lib) 0 500000%Z 3%Z 2%Z 1%Z [1%Z])
           "Good" (IntegerLib.request 3 2 1 "Good") eq_refl eq_refl);
    try reflexivity.
  - left. reflexivity.
  - left. reflexivity.
  - vm_compute. tauto.
Defined.
